(** * Point-to-point net device and router-ID allocation

    A shallow embedding of [src/devices/p2p/p2p-net-device.cc] (the
    transmitter state machine of [PointToPointNetDevice]) together with the
    collaborators it calls (queue, channel, simulator kernel, net-device base
    class, routing environment), and the properties of the transmit path.

    Objects live in a store and are referred to by [Ptr]s, as in the C++
    code: devices, channels and queues are shared by reference.  A member
    function is a computation in the monad [Sim], which threads the store
    and can abort, either on a failed [NS_ASSERT] or on the dereference of a
    null smart pointer. *)

From Stdlib Require Import ZArith List Bool String Lia.
From stdpp Require Import base option list.
Import ListNotations.

Set Default Proof Using "Type".

(** ** Data model *)

(** Modelled from the spec: [Time] (ns3/nstime.h is not part of the
    sources); "time arithmetic" on a virtual clock, here a signed count of
    clock ticks. *)
Abbreviation Time := Z (only parsing).

(** Modelled from the spec: [DataRate] (ns3/data-rate.h is not part of the
    sources); a bit rate in bits per second. *)
Abbreviation DataRate := Z (only parsing).

(** Modelled from the spec: [Packet] (ns3/packet.h is not part of the
    sources); an opaque payload with a 64-bit identifier and a size in
    bytes. *)
Record Packet := mkPacket {
  GetUid : Z;
  GetSize : Z
}.

(** [MacAddress]: six octets; [SendTo] does not look at it. *)
Abbreviation MacAddress := (list Z) (only parsing).

(** A [Ptr<T>] is an index into the store of objects of type [T], or null. *)
Abbreviation DevPtr := nat (only parsing).
Abbreviation Ptr := (option nat) (only parsing).
Definition null : Ptr := None.

(** [enum TxMachineState] of p2p-net-device.h. *)
Inductive TxMachineState := READY | BUSY.

Definition TxMachineState_eqb (a b : TxMachineState) : bool :=
  match a, b with
  | READY, READY | BUSY, BUSY => true
  | _, _ => false
  end.

(** The members of [PointToPointNetDevice] written by the .cc file, and the
    link-up flag of its base class [NetDevice] ([IsLinkUp], [NotifyLinkUp]).
    The receive trace and the MAC address play no part in the transmit path. *)
Record PointToPointNetDevice := mkDevice {
  m_txMachineState : TxMachineState;
  m_bps : DataRate;
  m_tInterframeGap : Time;
  m_channel : Ptr;
  m_queue : Ptr;
  m_isUp : bool
}.

(** Modelled from the spec: [PointToPointChannel] (p2p-channel.cc is not part
    of the sources); a medium with at most two attached devices, one
    [DataRate] and one propagation delay. *)
Record PointToPointChannel := mkChannel {
  ch_bps : DataRate;
  ch_delay : Time;
  ch_devices : list DevPtr
}.

(** Modelled from the spec: [Queue] (ns3/queue.h is not part of the sources);
    an ordered sequence of packets with a maximum length, or unbounded. *)
Record Queue := mkQueue {
  q_packets : list Packet;
  q_maxPackets : option nat
}.

(** The callbacks the device and the channel hand to [Simulator::Schedule]. *)
Inductive Event :=
| EvTransmitComplete (dev : DevPtr)
| EvReceive (dev : DevPtr) (p : Packet).

(** The whole simulation: the object stores, the kernel's clock and event
    list (in insertion order), and the packets forwarded to the upper layer. *)
Record World := mkWorld {
  w_devices : list PointToPointNetDevice;
  w_channels : list PointToPointChannel;
  w_queues : list Queue;
  w_now : Time;
  w_events : list (Time * Event);
  w_forwarded : list (DevPtr * Packet)
}.

Definition empty_world : World :=
  {| w_devices := []; w_channels := []; w_queues := [];
     w_now := 0%Z; w_events := []; w_forwarded := [] |}.

Definition set_devices (f : list PointToPointNetDevice -> list PointToPointNetDevice)
    (w : World) : World :=
  {| w_devices := f (w_devices w); w_channels := w_channels w;
     w_queues := w_queues w; w_now := w_now w; w_events := w_events w;
     w_forwarded := w_forwarded w |}.

Definition set_channels (f : list PointToPointChannel -> list PointToPointChannel)
    (w : World) : World :=
  {| w_devices := w_devices w; w_channels := f (w_channels w);
     w_queues := w_queues w; w_now := w_now w; w_events := w_events w;
     w_forwarded := w_forwarded w |}.

Definition set_queues (f : list Queue -> list Queue) (w : World) : World :=
  {| w_devices := w_devices w; w_channels := w_channels w;
     w_queues := f (w_queues w); w_now := w_now w; w_events := w_events w;
     w_forwarded := w_forwarded w |}.

Definition set_now (t : Time) (w : World) : World :=
  {| w_devices := w_devices w; w_channels := w_channels w;
     w_queues := w_queues w; w_now := t; w_events := w_events w;
     w_forwarded := w_forwarded w |}.

Definition set_events (f : list (Time * Event) -> list (Time * Event))
    (w : World) : World :=
  {| w_devices := w_devices w; w_channels := w_channels w;
     w_queues := w_queues w; w_now := w_now w; w_events := f (w_events w);
     w_forwarded := w_forwarded w |}.

Definition set_forwarded (f : list (DevPtr * Packet) -> list (DevPtr * Packet))
    (w : World) : World :=
  {| w_devices := w_devices w; w_channels := w_channels w;
     w_queues := w_queues w; w_now := w_now w; w_events := w_events w;
     w_forwarded := f (w_forwarded w) |}.

(** ** The simulation monad *)

(** How a call can end the simulation: a failed [NS_ASSERT] (assertions are
    compiled in), or the dereference of a null or dangling pointer. *)
Inductive Abort :=
| AssertFailure (msg : string)
| NullPointer.

Inductive Outcome (A : Type) :=
| Done (a : A) (w : World)
| Aborted (e : Abort).
Arguments Done {A} a w.
Arguments Aborted {A} e.

Definition Sim (A : Type) := World -> Outcome A.

Definition ret {A} (a : A) : Sim A := fun w => Done a w.

Definition bind {A B} (m : Sim A) (k : A -> Sim B) : Sim B :=
  fun w => match m w with
           | Done a w' => k a w'
           | Aborted e => Aborted e
           end.

Definition abort {A} (e : Abort) : Sim A := fun _ => Aborted e.

Declare Scope sim_scope.
Delimit Scope sim_scope with sim.
Notation "'do' x <- m ;; k" := (bind m (fun x => k))
  (at level 10, x name, m at level 99, k at level 200,
   format "'[v' 'do'  x  <-  m  ;;  '/' k ']'") : sim_scope.
Notation "'do' ' pat <- m ;; k" := (bind m (fun pat => k))
  (at level 10, pat pattern, m at level 99, k at level 200,
   format "'[v' 'do'  ' pat  <-  m  ;;  '/' k ']'") : sim_scope.
Notation "'exec' m ;; k" := (bind m (fun _ => k))
  (at level 10, m at level 99, k at level 200,
   format "'[v' 'exec'  m  ;;  '/' k ']'") : sim_scope.
Open Scope sim_scope.

Definition NS_ASSERT (cond : bool) (msg : string) : Sim unit :=
  if cond then ret tt else abort (AssertFailure msg).

(** Dereference of [this], of a [Ptr<PointToPointChannel>] and of a
    [Ptr<Queue>]. *)
Definition deref_device (this : DevPtr) : Sim PointToPointNetDevice :=
  fun w => match w_devices w !! this with
           | Some d => Done d w
           | None => Aborted NullPointer
           end.

Definition deref_channel (ch : Ptr) : Sim (nat * PointToPointChannel) :=
  fun w => match ch with
           | Some c => match w_channels w !! c with
                       | Some chan => Done (c, chan) w
                       | None => Aborted NullPointer
                       end
           | None => Aborted NullPointer
           end.

Definition deref_queue (q : Ptr) : Sim (nat * Queue) :=
  fun w => match q with
           | Some i => match w_queues w !! i with
                       | Some qu => Done (i, qu) w
                       | None => Aborted NullPointer
                       end
           | None => Aborted NullPointer
           end.

(** Assignment to a member of [*this]. *)
Definition update_device (this : DevPtr)
    (f : PointToPointNetDevice -> PointToPointNetDevice) : Sim unit :=
  do d <- deref_device this ;;
  fun w => Done tt (set_devices (fun l => <[this := f d]> l) w).

Definition set_txMachineState (s : TxMachineState) (d : PointToPointNetDevice) :=
  {| m_txMachineState := s; m_bps := m_bps d;
     m_tInterframeGap := m_tInterframeGap d; m_channel := m_channel d;
     m_queue := m_queue d; m_isUp := m_isUp d |}.

Definition set_bps (r : DataRate) (d : PointToPointNetDevice) :=
  {| m_txMachineState := m_txMachineState d; m_bps := r;
     m_tInterframeGap := m_tInterframeGap d; m_channel := m_channel d;
     m_queue := m_queue d; m_isUp := m_isUp d |}.

Definition set_tInterframeGap (t : Time) (d : PointToPointNetDevice) :=
  {| m_txMachineState := m_txMachineState d; m_bps := m_bps d;
     m_tInterframeGap := t; m_channel := m_channel d;
     m_queue := m_queue d; m_isUp := m_isUp d |}.

Definition set_channel (ch : Ptr) (d : PointToPointNetDevice) :=
  {| m_txMachineState := m_txMachineState d; m_bps := m_bps d;
     m_tInterframeGap := m_tInterframeGap d; m_channel := ch;
     m_queue := m_queue d; m_isUp := m_isUp d |}.

Definition set_queue (q : Ptr) (d : PointToPointNetDevice) :=
  {| m_txMachineState := m_txMachineState d; m_bps := m_bps d;
     m_tInterframeGap := m_tInterframeGap d; m_channel := m_channel d;
     m_queue := q; m_isUp := m_isUp d |}.

Definition set_isUp (b : bool) (d : PointToPointNetDevice) :=
  {| m_txMachineState := m_txMachineState d; m_bps := m_bps d;
     m_tInterframeGap := m_tInterframeGap d; m_channel := m_channel d;
     m_queue := m_queue d; m_isUp := b |}.

(** ** The simulator kernel *)

(** Modelled from the spec: [Simulator::Schedule] and [Simulator::Now]
    (ns3/simulator.h is not part of the sources); [schedule (delay, callback)]
    fires the callback at [now () + delay]. *)
Definition Simulator_Schedule (delay : Time) (ev : Event) : Sim unit :=
  fun w => Done tt (set_events (fun l => l ++ [((w_now w + delay)%Z, ev)]) w).

(** Modelled from the spec: the kernel's choice of the next event; the
    earliest one, and among events at the same virtual time the one inserted
    first.  Returns the event and the remaining list, in insertion order. *)
Fixpoint next_event (l : list (Time * Event))
    : option ((Time * Event) * list (Time * Event)) :=
  match l with
  | [] => None
  | e :: l' =>
      match next_event l' with
      | Some (m, rest) =>
          if (fst m <? fst e)%Z then Some (m, e :: rest) else Some (e, l')
      | None => Some (e, [])
      end
  end.

(** ** Queue *)

Definition queue_full (q : Queue) : bool :=
  match q_maxPackets q with
  | Some n => n <=? length (q_packets q)
  | None => false
  end.

(** Modelled from the spec: [Queue::Enqueue]; drop-tail, "enqueue fails and
    reports back-pressure when full". *)
Definition Queue_Enqueue (q : Ptr) (p : Packet) : Sim bool :=
  do '(i, qu) <- deref_queue q ;;
  if queue_full qu then ret false
  else fun w =>
    Done true (set_queues (fun l =>
      <[i := {| q_packets := q_packets qu ++ [p];
                q_maxPackets := q_maxPackets qu |}]> l) w).

(** Modelled from the spec: [Queue::Dequeue (Packet &p)]; "dequeue returns
    front or signals empty".  [None] stands for the C++ result [false]. *)
Definition Queue_Dequeue (q : Ptr) : Sim (option Packet) :=
  do '(i, qu) <- deref_queue q ;;
  match q_packets qu with
  | [] => ret None
  | p :: rest => fun w =>
      Done (Some p) (set_queues (fun l =>
        <[i := {| q_packets := rest; q_maxPackets := q_maxPackets qu |}]> l) w)
  end.

(** ** Channel *)

(** The endpoint of the channel that is not the sender, when attached. *)
Definition channel_peer (c : PointToPointChannel) (src : DevPtr) : option DevPtr :=
  find (fun d => negb (Nat.eqb d src)) (ch_devices c).

(** Modelled from the spec: [PointToPointChannel::Attach]; "succeeds until
    two endpoints are attached; then fails", "idempotent-safe; rejects the
    third attach". *)
Definition Channel_Attach (ch : Ptr) (dev : DevPtr) : Sim bool :=
  do '(i, c) <- deref_channel ch ;;
  if existsb (Nat.eqb dev) (ch_devices c) then ret true
  else if length (ch_devices c) <? 2 then fun w =>
    Done true (set_channels (fun l =>
      <[i := {| ch_bps := ch_bps c; ch_delay := ch_delay c;
                ch_devices := ch_devices c ++ [dev] |}]> l) w)
  else ret false.

Definition Channel_GetDataRate (ch : Ptr) : Sim DataRate :=
  do '(_, c) <- deref_channel ch ;; ret (ch_bps c).

Definition Channel_GetDelay (ch : Ptr) : Sim Time :=
  do '(_, c) <- deref_channel ch ;; ret (ch_delay c).

(** Modelled from the spec: [PointToPointChannel::TransmitStart]; "schedules
    delivery to the non-sender endpoint at [now + delay]; returns true iff a
    peer is attached". *)
Definition Channel_TransmitStart (ch : Ptr) (p : Packet) (src : DevPtr) : Sim bool :=
  do '(_, c) <- deref_channel ch ;;
  match channel_peer c src with
  | Some dst => exec Simulator_Schedule (ch_delay c) (EvReceive dst p) ;; ret true
  | None => ret false
  end.

(** ** PointToPointNetDevice *)

(** The transmission time of a packet is computed by the [DataRate] class,
    whose code is not part of the sources; the device is verified for every
    such function.  [CalculateTxTime bps n] stands for the C++ expression
    [Seconds (bps.CalculateTxTime (n))]. *)
Class DataRateOps := {
  CalculateTxTime : DataRate -> Z -> Time
}.

(** The constructor [PointToPointNetDevice (node, rate)]. *)
Definition PointToPointNetDevice_new (rate : DataRate) : PointToPointNetDevice :=
  {| m_txMachineState := READY;
     m_bps := rate;
     m_tInterframeGap := 0%Z;
     m_channel := null;
     m_queue := null;
     m_isUp := false |}.

(** The copy constructor: the copy starts [READY] and shares the channel
    and, when there is one, the queue of the original.  The base class is
    copied by [NetDevice (nd)], so the link-up flag with it. *)
Definition PointToPointNetDevice_copy (nd : PointToPointNetDevice)
    : PointToPointNetDevice :=
  {| m_txMachineState := READY;
     m_bps := m_bps nd;
     m_tInterframeGap := m_tInterframeGap nd;
     m_channel := m_channel nd;
     m_queue := match m_queue nd with
                | Some q => Some q
                | None => null
                end;
     m_isUp := m_isUp nd |}.

(** Modelled from the spec: [NetDevice::IsLinkUp] and
    [NetDevice::NotifyLinkUp] of the base class (net-device.cc is not part of
    the sources); the link-up flag and its setter. *)
Definition IsLinkUp (this : DevPtr) : Sim bool :=
  do d <- deref_device this ;; ret (m_isUp d).

Definition NotifyLinkUp (this : DevPtr) : Sim unit :=
  update_device this (set_isUp true).

(** Modelled from the spec: [NetDevice::ForwardUp]; hands the packet to the
    upper layer, here a log of deliveries. *)
Definition ForwardUp (this : DevPtr) (p : Packet) : Sim unit :=
  fun w => Done tt (set_forwarded (fun l => l ++ [(this, p)]) w).

Definition SetDataRate (this : DevPtr) (bps : DataRate) : Sim unit :=
  update_device this (set_bps bps).

Definition SetInterframeGap (this : DevPtr) (t : Time) : Sim unit :=
  update_device this (set_tInterframeGap t).

Section Transmitter.
Context `{DataRateOps}.

Definition TransmitStart (this : DevPtr) (p : Packet) : Sim bool :=
  do d <- deref_device this ;;
  exec NS_ASSERT (TxMachineState_eqb (m_txMachineState d) READY)
         "Must be READY to transmit" ;;
  exec update_device this (set_txMachineState BUSY) ;;
  let txCompleteTime :=
    (CalculateTxTime (m_bps d) (GetSize p) + m_tInterframeGap d)%Z in
  exec Simulator_Schedule txCompleteTime (EvTransmitComplete this) ;;
  Channel_TransmitStart (m_channel d) p this.

(** The world in which [TransmitStart] consults the channel: the transmitter
    is [BUSY] and the completion callback is on the event list. *)
Definition transmitting (this : DevPtr) (d : PointToPointNetDevice) (p : Packet)
    (w : World) : World :=
  set_events (fun l => l ++
      [((w_now w + (CalculateTxTime (m_bps d) (GetSize p) + m_tInterframeGap d))%Z,
        EvTransmitComplete this)])
    (set_devices (fun l => <[this := set_txMachineState BUSY d]> l) w).

Definition SendTo (this : DevPtr) (p : Packet) (dest : MacAddress) : Sim bool :=
  do up <- IsLinkUp this ;;
  exec NS_ASSERT up "IsLinkUp ()" ;;
  do d <- deref_device this ;;
  match m_txMachineState d with
  | READY => TransmitStart this p
  | BUSY => Queue_Enqueue (m_queue d) p
  end.

Definition TransmitComplete (this : DevPtr) : Sim unit :=
  do d <- deref_device this ;;
  exec NS_ASSERT (TxMachineState_eqb (m_txMachineState d) BUSY)
         "Must be BUSY if transmitting" ;;
  exec update_device this (set_txMachineState READY) ;;
  do r <- Queue_Dequeue (m_queue d) ;;
  match r with
  | None => ret tt
  | Some p => exec TransmitStart this p ;; ret tt
  end.

End Transmitter.

Definition Attach (this : DevPtr) (ch : Ptr) : Sim bool :=
  exec update_device this (set_channel ch) ;;
  do d <- deref_device this ;;
  exec Channel_Attach (m_channel d) this ;;
  do bps <- Channel_GetDataRate (m_channel d) ;;
  exec update_device this (set_bps bps) ;;
  do delay <- Channel_GetDelay (m_channel d) ;;
  exec update_device this (set_tInterframeGap delay) ;;
  exec NotifyLinkUp this ;;
  ret true.

Definition AddQueue (this : DevPtr) (q : Ptr) : Sim unit :=
  update_device this (set_queue q).

(** [m_rxTrace (p)] notifies the trace observers, which only watch; then the
    packet goes up. *)
Definition Receive (this : DevPtr) (p : Packet) : Sim unit :=
  ForwardUp this p.

Definition GetQueue (this : DevPtr) : Sim Ptr :=
  do d <- deref_device this ;; ret (m_queue d).

Definition DoNeedsArp (this : DevPtr) : bool := false.

(** ** Simulation runs *)

(** The number of [TransmitComplete] callbacks of device [dev] that are
    scheduled and have not fired yet. *)
Definition is_TransmitComplete (dev : DevPtr) (e : Time * Event) : bool :=
  match snd e with
  | EvTransmitComplete d => Nat.eqb d dev
  | EvReceive _ _ => false
  end.

Fixpoint pending_TransmitComplete (dev : DevPtr) (l : list (Time * Event)) : nat :=
  match l with
  | [] => 0
  | e :: l' =>
      (if is_TransmitComplete dev e then 1 else 0) + pending_TransmitComplete dev l'
  end.

(** What the topology code, the upper layer and the kernel do to the
    simulation between two quiescent states. *)
Inductive Call :=
| NewDevice (rate : DataRate)
| CopyDevice (dev : DevPtr)
| NewChannel (bps : DataRate) (delay : Time)
| NewQueue (maxPackets : option nat)
| CallSetDataRate (dev : DevPtr) (bps : DataRate)
| CallSetInterframeGap (dev : DevPtr) (t : Time)
| CallAttach (dev : DevPtr) (ch : Ptr)
| CallAddQueue (dev : DevPtr) (q : Ptr)
| CallSendTo (dev : DevPtr) (p : Packet) (dest : MacAddress)
| RunOneEvent.

(** [Create<PointToPointNetDevice> (node, rate)], and the same from a copy. *)
Definition Create_Device (rate : DataRate) : Sim unit :=
  fun w => Done tt (set_devices (fun l => l ++ [PointToPointNetDevice_new rate]) w).

Definition Copy_Device (dev : DevPtr) : Sim unit :=
  do nd <- deref_device dev ;;
  fun w => Done tt (set_devices (fun l => l ++ [PointToPointNetDevice_copy nd]) w).

Definition Create_Channel (bps : DataRate) (delay : Time) : Sim unit :=
  fun w => Done tt (set_channels (fun l =>
    l ++ [{| ch_bps := bps; ch_delay := delay; ch_devices := [] |}]) w).

(** [Create<Queue> ()]: a new, empty queue, at the next free pointer. *)
Definition Create_Queue (maxPackets : option nat) : Sim unit :=
  fun w => Done tt
    (set_queues (fun l => l ++ [{| q_packets := []; q_maxPackets := maxPackets |}]) w).

Section Run.
Context `{DataRateOps}.

(** Modelled from the spec: one turn of the kernel's event loop; the clock
    moves to the time of the next event and its callback runs. *)
Definition Simulator_RunOne : Sim unit :=
  fun w =>
    match next_event (w_events w) with
    | None => Done tt w
    | Some ((t, ev), rest) =>
        let w1 := set_now t (set_events (fun _ => rest) w) in
        match ev with
        | EvTransmitComplete dev => TransmitComplete dev w1
        | EvReceive dev p => Receive dev p w1
        end
    end.

Definition perform (c : Call) : Sim unit :=
  match c with
  | NewDevice rate => Create_Device rate
  | CopyDevice dev => Copy_Device dev
  | NewChannel bps delay => Create_Channel bps delay
  | NewQueue maxPackets => Create_Queue maxPackets
  | CallSetDataRate dev bps => SetDataRate dev bps
  | CallSetInterframeGap dev t => SetInterframeGap dev t
  | CallAttach dev ch => exec Attach dev ch ;; ret tt
  | CallAddQueue dev q => AddQueue dev q
  | CallSendTo dev p dest => exec SendTo dev p dest ;; ret tt
  | RunOneEvent => Simulator_RunOne
  end.

(** The quiescent states of a run: those between two calls, from the start
    of the simulation on, for any interleaving of the calls that [allowed]
    admits and of scheduled callbacks.  A call that aborts ends the run. *)
Inductive reachable (allowed : World -> Call -> bool) : World -> Prop :=
| reachable_start : reachable allowed empty_world
| reachable_call w c w' :
    reachable allowed w -> allowed w c = true -> perform c w = Done tt w' ->
    reachable allowed w'.

(** A sequence of calls, performed one after the other as long as they
    are allowed and return. *)
Fixpoint run_within (allowed : World -> Call -> bool) (cs : list Call) (w : World)
    : option World :=
  match cs with
  | [] => Some w
  | c :: cs' =>
      if allowed w c then
        match perform c w with
        | Done _ w' => run_within allowed cs' w'
        | Aborted _ => None
        end
      else None
  end.

End Run.

(** No restriction on the calls. *)
Definition any_call (w : World) (c : Call) : bool := true.

(** The usage contract of the spec: [SendTo] only when the link is up. *)
Definition contract (w : World) (c : Call) : bool :=
  match c with
  | CallSendTo dev _ _ =>
      match w_devices w !! dev with
      | Some d => m_isUp d
      | None => false
      end
  | _ => true
  end.

(** A device holds its queue: the queue handed to [AddQueue] is empty and
    no device has it yet, and a device that has a queue is not copied. *)
Definition holds_queue (q : nat) (d : PointToPointNetDevice) : bool :=
  match m_queue d with
  | Some q' => Nat.eqb q' q
  | None => false
  end.

Definition own_queue (w : World) (c : Call) : bool :=
  match c with
  | CallAddQueue _ (Some q) =>
      match w_queues w !! q with
      | Some qu => match q_packets qu with [] => true | _ :: _ => false end
      | None => false
      end && forallb (fun d => negb (holds_queue q d)) (w_devices w)
  | CopyDevice dev =>
      match w_devices w !! dev with
      | Some d => match m_queue d with Some _ => false | None => true end
      | None => true
      end
  | _ => true
  end.

(** The state of device [dev], and the packets waiting in its queue. *)
Definition device_state (w : World) (dev : DevPtr) : option TxMachineState :=
  m_txMachineState <$> w_devices w !! dev.

Definition device_queue (w : World) (dev : DevPtr) : option (list Packet) :=
  match w_devices w !! dev with
  | Some d =>
      match m_queue d with
      | Some q => q_packets <$> w_queues w !! q
      | None => None
      end
  | None => None
  end.

(** The virtual times at which the scheduled [TransmitComplete] callbacks of
    device [dev] will fire, in insertion order. *)
Fixpoint TransmitComplete_times (dev : DevPtr) (l : list (Time * Event)) : list Time :=
  match l with
  | [] => []
  | e :: l' =>
      if is_TransmitComplete dev e
      then fst e :: TransmitComplete_times dev l'
      else TransmitComplete_times dev l'
  end.


(** ** Router IDs *)

(** An [Ipv4Address] holds a 32-bit number; [a.b.c.d] is
    [((a * 256 + b) * 256 + c) * 256 + d]. *)
Record Ipv4Address := mkIpv4Address {
  GetHostOrder : Z
}.

Definition dotted (a b c d : Z) : Ipv4Address :=
  {| GetHostOrder := ((a * 256 + b) * 256 + c) * 256 + d |}.

(** Modelled from the spec: [RoutingEnvironment] (routing-environment.cc is
    not part of the sources); "a monotonic router-ID allocator seeded at
    [0.0.0.1]", "a process-wide monotonic integer, mutated only at router
    construction".  The state is the next ID to hand out. *)
Record RoutingEnvironment := mkRoutingEnvironment {
  routerId : Z
}.

Definition RoutingEnvironment_start : RoutingEnvironment :=
  {| routerId := GetHostOrder (dotted 0 0 0 1) |}.

(** Modelled from the spec: [RoutingEnvironment::AllocateRouterId], named by
    the documentation of [GlobalRouter::GetRouterId]; "one per Router,
    starting at 0.0.0.1 and incrementing with each instantiation of a
    router". *)
Definition AllocateRouterId (env : RoutingEnvironment)
    : Ipv4Address * RoutingEnvironment :=
  ({| GetHostOrder := routerId env |}, {| routerId := routerId env + 1 |}).

(** The member of [GlobalRouter] that the header declares for the ID. *)
Record GlobalRouter := mkGlobalRouter {
  m_node : nat;
  m_routerId : Ipv4Address
}.

(** Modelled from the spec: the constructor [GlobalRouter (node)]
    (global-router-interface.cc is not part of the sources); takes the next
    router ID from the routing environment. *)
Definition GlobalRouter_new (node : nat) (env : RoutingEnvironment)
    : GlobalRouter * RoutingEnvironment :=
  let '(id, env') := AllocateRouterId env in
  ({| m_node := node; m_routerId := id |}, env').

Definition GetRouterId (r : GlobalRouter) : Ipv4Address := m_routerId r.

(** The routers of a run, constructed one after the other on the given
    nodes. *)
Fixpoint create_routers (nodes : list nat) (env : RoutingEnvironment)
    : list GlobalRouter * RoutingEnvironment :=
  match nodes with
  | [] => ([], env)
  | node :: rest =>
      let '(r, env1) := GlobalRouter_new node env in
      let '(rs, env2) := create_routers rest env1 in
      (r :: rs, env2)
  end.


(** ** The invariant of the transmitter *)

(** A call ends without a failed assertion. *)
Definition no_assert_failure {A} (o : Outcome A) : Prop :=
  forall msg, o <> Aborted (AssertFailure msg).

(** What holds of the devices and the event list in every quiescent state,
    whatever the calls: a device has a completion callback pending exactly
    when it is [BUSY], and then only one. *)
Definition pending_invariant (devs : list PointToPointNetDevice)
    (evs : list (Time * Event)) : Prop :=
  forall dev,
    pending_TransmitComplete dev evs =
    match devs !! dev with
    | Some d => match m_txMachineState d with BUSY => 1 | READY => 0 end
    | None => 0
    end.



(** ** Scenarios *)

(** A data rate whose transmission times are exact in nanosecond ticks. *)
Definition nanosecond_ticks : DataRateOps :=
  {| CalculateTxTime := fun bps bytes => (8 * bytes * 1000000000 / bps)%Z |}.

(** The device of scenario S1 before its peer exists: a 10 Mb/s channel with
    a delay of 2 ms, one device with a queue of capacity 1 attached to it. *)
Definition one_sided_setup : list Call :=
  [NewDevice 10000000; NewChannel 10000000 2000000;
   NewQueue (Some 1); CallAddQueue 0 (Some 0); CallAttach 0 (Some 0)].

(** Scenario S4 on both endpoints: three packets of 1250 bytes are sent
    back to back, and the kernel runs two events. *)
Definition two_sided_setup : list Call :=
  one_sided_setup ++
  [NewDevice 10000000; NewQueue (Some 1); CallAddQueue 1 (Some 1);
   CallAttach 1 (Some 0)].

Definition packet (uid : Z) : Packet := {| GetUid := uid; GetSize := 1250 |}.

Definition back_to_back : list Call :=
  two_sided_setup ++
  [CallSendTo 0 (packet 1) []; CallSendTo 0 (packet 2) [];
   CallSendTo 0 (packet 3) []; RunOneEvent; RunOneEvent].

(** The world a sequence of calls leaves behind, when none of them aborts. *)
Definition world_after `{DataRateOps} (cs : list Call) : World :=
  match run_within any_call cs empty_world with
  | Some w => w
  | None => empty_world
  end.

(** Worlds along these scenarios: before the device is attached, after
    the one-sided setup, with the first packet on the wire, with a second
    packet waiting, and at the end of the back-to-back scenario. *)
Definition unattached_world : World :=
  @world_after nanosecond_ticks
    [NewDevice 10000000; NewChannel 10000000 2000000;
     NewQueue (Some 1); CallAddQueue 0 (Some 0)].

Definition one_sided_world : World :=
  @world_after nanosecond_ticks one_sided_setup.

Definition sending_world : World :=
  @world_after nanosecond_ticks (one_sided_setup ++ [CallSendTo 0 (packet 1) []]).

Definition waiting_world : World :=
  @world_after nanosecond_ticks
    (one_sided_setup ++ [CallSendTo 0 (packet 1) []; CallSendTo 0 (packet 2) []]).

Definition back_to_back_world : World :=
  @world_after nanosecond_ticks back_to_back.

(** A device that was attached and has sent a packet, but was never given a
    queue. *)
Definition no_queue_setup : list Call :=
  [NewDevice 10000000; NewChannel 10000000 2000000; CallAttach 0 (Some 0)].

Definition no_queue_world : World :=
  @world_after nanosecond_ticks (no_queue_setup ++ [CallSendTo 0 (packet 1) []]).

(** The objects in these worlds. *)
Definition attached_device (s : TxMachineState) (q : Ptr) : PointToPointNetDevice :=
  {| m_txMachineState := s; m_bps := 10000000; m_tInterframeGap := 2000000;
     m_channel := Some 0; m_queue := q; m_isUp := true |}.

Definition the_channel (devs : list DevPtr) : PointToPointChannel :=
  {| ch_bps := 10000000; ch_delay := 2000000; ch_devices := devs |}.

Definition the_queue (l : list Packet) : Queue :=
  {| q_packets := l; q_maxPackets := Some 1 |}.

(** ** The rest of the device *)

Definition DoGetChannel (this : DevPtr) : Sim Ptr :=
  do d <- deref_device this ;; ret (m_channel d).

(** [NetDevice::DoDispose] of the base class is not part of the sources.  It
    can only reach the members of the base class, here the link-up flag; the
    device is verified for every such function. *)
Class NetDeviceOps := {
  NetDevice_DoDispose : bool -> bool
}.

Definition DoDispose `{NetDeviceOps} (this : DevPtr) : Sim unit :=
  exec update_device this (set_channel null) ;;
  update_device this (fun d => set_isUp (NetDevice_DoDispose (m_isUp d)) d).

(** The packets on their way to a peer: the deliveries the channel has
    scheduled, with their times, in insertion order. *)
Fixpoint deliveries (l : list (Time * Event)) : list (Time * DevPtr * Packet) :=
  match l with
  | [] => []
  | (t, EvReceive dst p) :: l' => (t, dst, p) :: deliveries l'
  | (_, EvTransmitComplete _) :: l' => deliveries l'
  end.

(** [n] completion callbacks of one device in a row. *)
Fixpoint complete_all `{DataRateOps} (n : nat) (this : DevPtr) : Sim unit :=
  match n with
  | 0 => ret tt
  | S n' => exec TransmitComplete this ;; complete_all n' this
  end.




Definition spare_queue_world : World :=
  @world_after nanosecond_ticks
    (one_sided_setup ++
     [CallSendTo 0 (packet 1) []; CallSendTo 0 (packet 2) []; NewQueue None]).

Definition unbounded_setup : list Call :=
  [NewDevice 10000000; NewChannel 10000000 2000000; NewQueue None;
   CallAddQueue 0 (Some 0); CallAttach 0 (Some 0);
   NewDevice 10000000; CallAttach 1 (Some 0)].

Definition two_waiting_world : World :=
  @world_after nanosecond_ticks
    (unbounded_setup ++
     [CallSendTo 0 (packet 1) []; CallSendTo 0 (packet 2) [];
      CallSendTo 0 (packet 3) []]).


(** A base class whose [DoDispose] leaves the link-up flag alone. *)
Definition keep_link : NetDeviceOps :=
  {| NetDevice_DoDispose := fun up => up |}.

(** * Properties *)

(** ** Evaluating calls on a symbolic store *)

Ltac unfold_sim :=
  unfold Attach, AddQueue, SetDataRate, SetInterframeGap, Receive, ForwardUp,
    IsLinkUp, NotifyLinkUp, Channel_TransmitStart, Channel_Attach,
    Channel_GetDataRate, Channel_GetDelay, Queue_Enqueue, Queue_Dequeue,
    Simulator_Schedule, Create_Device, Copy_Device, Create_Channel,
    Create_Queue,
    update_device, deref_device, deref_channel, deref_queue, NS_ASSERT,
    bind, ret, abort, set_devices, set_channels, set_queues, set_events,
    set_now, set_forwarded in *.

Ltac lookup_length :=
  rewrite ?length_insert, ?length_app; cbn [length];
  first [ eapply lookup_lt_Some; eassumption
        | (match goal with H : _ !! _ = Some _ |- _ =>
             apply lookup_lt_Some in H end); lia
        | lia ].

Ltac sim_eval :=
  repeat first
    [ rewrite list_insert_insert_eq
    | match goal with
      | H : ?l !! ?i = _ |- context [?l !! ?i] => rewrite H
      | |- context [<[?i := ?x]> ?l !! ?i] =>
          rewrite (list_lookup_insert_eq l i x) by lookup_length
      | |- context [<[?i := ?x]> ?l !! ?j] =>
          rewrite (list_lookup_insert_ne l i j x) by congruence
      end
    | progress cbn ].

(** C1: for every channel [ch], [Attach (ch)] on a device records [ch] as the
    device's channel, copies the channel's data rate into [m_bps] and the
    channel's propagation delay into the local field the code keeps it in,
    [m_tInterframeGap], marks the link up and returns [true]; the other
    members and the other devices are left as they were. *)
Theorem Attach_records_channel (w : World) (this : DevPtr)
    (d : PointToPointNetDevice) (c : nat) (chan : PointToPointChannel) :
  w_devices w !! this = Some d ->
  w_channels w !! c = Some chan ->
  exists w',
    Attach this (Some c) w = Done true w' /\
    w_devices w' !! this =
      Some {| m_txMachineState := m_txMachineState d;
              m_bps := ch_bps chan;
              m_tInterframeGap := ch_delay chan;
              m_channel := Some c;
              m_queue := m_queue d;
              m_isUp := true |} /\
    IsLinkUp this w' = Done true w' /\
    (forall other, other <> this -> w_devices w' !! other = w_devices w !! other).
Proof.
  destruct w as [devs chans qs now evs fwd]. cbn. intros Hd Hc.
  unfold_sim. sim_eval.
  destruct (existsb _ _); [|destruct (_ <=? 1)]; sim_eval.
  all: eexists; split; [reflexivity|]; sim_eval.
  all: repeat split; auto.
  all: intros other Hne; now rewrite list_lookup_insert_ne by congruence.
Qed.

(** ** The transmit path, call by call *)

Lemma TransmitComplete_times_app dev l1 l2 :
  TransmitComplete_times dev (l1 ++ l2) =
  TransmitComplete_times dev l1 ++ TransmitComplete_times dev l2.
Proof.
  induction l1 as [|e l1 IH]; cbn; [reflexivity|].
  destruct (is_TransmitComplete dev e); cbn; now rewrite IH.
Qed.

Lemma pending_TransmitComplete_app dev l1 l2 :
  pending_TransmitComplete dev (l1 ++ l2) =
  pending_TransmitComplete dev l1 + pending_TransmitComplete dev l2.
Proof. induction l1 as [|e l1 IH]; cbn; [reflexivity|]. rewrite IH. lia. Qed.

Lemma pending_TransmitComplete_times dev l :
  pending_TransmitComplete dev l = length (TransmitComplete_times dev l).
Proof.
  induction l as [|e l IH]; cbn; [reflexivity|].
  destruct (is_TransmitComplete dev e); cbn; now rewrite IH.
Qed.

Section TransmitPath.
Context `{DataRateOps}.

Lemma TransmitStart_READY w this d p :
  w_devices w !! this = Some d ->
  m_txMachineState d = READY ->
  TransmitStart this p w =
  Channel_TransmitStart (m_channel d) p this (transmitting this d p w).
Proof.
  destruct w as [devs chans qs now evs fwd]. cbn. intros Hd Hst.
  unfold TransmitStart, transmitting. unfold_sim. sim_eval.
  rewrite Hst. sim_eval. reflexivity.
Qed.

Lemma TransmitStart_BUSY w this d p :
  w_devices w !! this = Some d ->
  m_txMachineState d = BUSY ->
  TransmitStart this p w = Aborted (AssertFailure "Must be READY to transmit").
Proof.
  intros Hd Hst. unfold TransmitStart, bind, deref_device.
  rewrite Hd, Hst. reflexivity.
Qed.

Lemma Channel_TransmitStart_Some c chan p src w :
  w_channels w !! c = Some chan ->
  Channel_TransmitStart (Some c) p src w =
  match channel_peer chan src with
  | Some dst =>
      Done true (set_events (fun l =>
        l ++ [((w_now w + ch_delay chan)%Z, EvReceive dst p)]) w)
  | None => Done false w
  end.
Proof.
  intros Hc. unfold Channel_TransmitStart, bind, deref_channel. rewrite Hc.
  now destruct (channel_peer chan src).
Qed.

Lemma Channel_TransmitStart_null p src w :
  Channel_TransmitStart None p src w = Aborted NullPointer.
Proof. reflexivity. Qed.

(** [SendTo] past its assertion, and [TransmitComplete] up to its own. *)
Lemma SendTo_up w this d p dest :
  w_devices w !! this = Some d ->
  m_isUp d = true ->
  SendTo this p dest w =
  match m_txMachineState d with
  | READY => TransmitStart this p w
  | BUSY => Queue_Enqueue (m_queue d) p w
  end.
Proof.
  intros Hd Hup. unfold SendTo, IsLinkUp, bind, deref_device, ret.
  rewrite Hd. cbn. rewrite Hup. cbn. rewrite Hd.
  now destruct (m_txMachineState d).
Qed.

Lemma TransmitComplete_BUSY_run w this d :
  w_devices w !! this = Some d ->
  m_txMachineState d = BUSY ->
  TransmitComplete this w =
  (do r <- Queue_Dequeue (m_queue d) ;;
   match r with
   | None => ret tt
   | Some p => exec TransmitStart this p ;; ret tt
   end) (set_devices (fun l => <[this := set_txMachineState READY d]> l) w).
Proof.
  intros Hd Hst. unfold TransmitComplete. unfold bind at 1.
  unfold deref_device. rewrite Hd, Hst. cbn. unfold bind at 1. cbn.
  unfold bind at 1. unfold update_device, bind at 1, deref_device.
  now rewrite Hd.
Qed.


End TransmitPath.

Section TransmitClaims.
Context `{DataRateOps}.

(** C2: for every packet [p], [TransmitStart (p)] on a [READY] device with a
    channel schedules one more [TransmitComplete] callback of this device,
    and it fires exactly at [now + txTime + interframeGap], where [txTime] is
    the transmission time of [p.GetSize ()] bytes at the device's data rate;
    the clock does not move. *)
Theorem TransmitStart_schedules_completion (w : World) (this : DevPtr)
    (d : PointToPointNetDevice) (c : nat) (chan : PointToPointChannel)
    (p : Packet) :
  w_devices w !! this = Some d ->
  m_txMachineState d = READY ->
  m_channel d = Some c ->
  w_channels w !! c = Some chan ->
  exists b w',
    TransmitStart this p w = Done b w' /\
    w_now w' = w_now w /\
    TransmitComplete_times this (w_events w') =
      TransmitComplete_times this (w_events w) ++
      [(w_now w + CalculateTxTime (m_bps d) (GetSize p) + m_tInterframeGap d)%Z].
Proof.
  intros Hd Hst Hch Hc.
  rewrite (TransmitStart_READY w this d p Hd Hst), Hch.
  rewrite (Channel_TransmitStart_Some c chan) by (now destruct w).
  destruct (channel_peer chan this) as [dst|]; do 2 eexists;
    (split; [reflexivity|]); destruct w as [devs chans qs now evs fwd]; cbn;
    (split; [reflexivity|]);
    rewrite ?TransmitComplete_times_app; cbn; rewrite Nat.eqb_refl;
    rewrite ?app_nil_r; f_equal; f_equal; lia.
Qed.

(** C3: with the link up and a queue present, [SendTo (p, dest)] on a
    [READY] device calls [TransmitStart (p)] at once and returns what the
    channel's [TransmitStart] returns; on a [BUSY] device it returns the
    result of the queue's [Enqueue], [false] exactly when the queue is full
    and the packet dropped, and leaves every device, so the transmitter
    state, as it was. *)
Theorem SendTo_link_up (w : World) (this : DevPtr) (d : PointToPointNetDevice)
    (q : nat) (qu : Queue) (p : Packet) (dest : MacAddress) :
  w_devices w !! this = Some d ->
  m_isUp d = true ->
  m_queue d = Some q ->
  w_queues w !! q = Some qu ->
  (m_txMachineState d = READY ->
     SendTo this p dest w = TransmitStart this p w /\
     SendTo this p dest w =
       Channel_TransmitStart (m_channel d) p this (transmitting this d p w)) /\
  (m_txMachineState d = BUSY ->
     SendTo this p dest w = Queue_Enqueue (m_queue d) p w /\
     exists w',
       SendTo this p dest w = Done (negb (queue_full qu)) w' /\
       w_devices w' = w_devices w /\
       device_state w' this = Some BUSY /\
       w_events w' = w_events w /\
       device_queue w' this =
         Some (if queue_full qu then q_packets qu else q_packets qu ++ [p])).
Proof.
  intros Hd Hup Hq Hqu.
  pose proof (SendTo_up w this d p dest Hd Hup) as Hsend.
  split; intros Hst; rewrite Hsend, Hst.
  - split; [reflexivity|]. now apply TransmitStart_READY.
  - split; [reflexivity|].
    unfold device_state, device_queue.
    destruct w as [devs chans qs now evs fwd]. cbn in *.
    rewrite Hq. unfold_sim. sim_eval.
    destruct (queue_full qu); eexists; (split; [reflexivity|]); sim_eval;
      rewrite ?Hst, ?Hq; sim_eval; auto.
Qed.

(** C4: an invocation of [TransmitComplete] on a [BUSY] device with a queue
    either (a) finds the queue empty, sets the state to [READY] and does
    nothing else, or (b) finds it non-empty, takes exactly the packet at the
    front out of it and calls [TransmitStart] on that packet with the
    transmitter [READY]; whenever that call returns, the device is [BUSY]
    again and the rest of the queue is still waiting; with a channel attached
    it does return. *)
Theorem TransmitComplete_BUSY (w : World) (this : DevPtr)
    (d : PointToPointNetDevice) (q : nat) (qu : Queue) :
  w_devices w !! this = Some d ->
  m_txMachineState d = BUSY ->
  m_queue d = Some q ->
  w_queues w !! q = Some qu ->
  (q_packets qu = [] ->
     TransmitComplete this w =
       Done tt (set_devices (fun l => <[this := set_txMachineState READY d]> l) w)) /\
  (forall p rest, q_packets qu = p :: rest ->
     let w1 :=
       set_queues (fun l =>
           <[q := {| q_packets := rest; q_maxPackets := q_maxPackets qu |}]> l)
         (set_devices (fun l => <[this := set_txMachineState READY d]> l) w) in
     TransmitComplete this w = (exec TransmitStart this p ;; ret tt) w1 /\
     (forall w', TransmitComplete this w = Done tt w' ->
        device_state w' this = Some BUSY /\
        device_queue w' this = Some rest) /\
     (forall c chan, m_channel d = Some c -> w_channels w !! c = Some chan ->
        exists w', TransmitComplete this w = Done tt w')).
Proof.
  intros Hd Hst Hq Hqu.
  assert (Hlt : this < length (w_devices w)) by (eapply lookup_lt_Some; eauto).
  pose proof (TransmitComplete_BUSY_run w this d Hd Hst) as Htc.
  rewrite Htc, Hq. split.
  - intros Hnil. unfold bind, Queue_Dequeue, bind, deref_queue.
    destruct w; cbn in *. now rewrite Hqu, Hnil.
  - intros p rest Hcons w1.
    assert (Hdq : forall k : option Packet -> Sim unit,
      (do r <- Queue_Dequeue (Some q) ;; k r)
        (set_devices (fun l => <[this := set_txMachineState READY d]> l) w) =
      k (Some p) w1).
    { intros k. unfold bind, Queue_Dequeue, bind, deref_queue, w1.
      destruct w; cbn in *. now rewrite Hqu, Hcons. }
    rewrite Hdq.
    assert (Hd1 : w_devices w1 !! this = Some (set_txMachineState READY d)).
    { unfold w1. destruct w; cbn in *. now apply list_lookup_insert_eq. }
    assert (Hrun : (exec TransmitStart this p ;; ret tt) w1 =
      match Channel_TransmitStart (m_channel d) p this
              (transmitting this (set_txMachineState READY d) p w1) with
      | Done _ w' => Done tt w'
      | Aborted e => Aborted e
      end).
    { unfold bind. now rewrite (TransmitStart_READY w1 this _ p Hd1 eq_refl). }
    split; [reflexivity|]. rewrite Hrun. split.
    + intros w'. destruct (m_channel d) as [c|]; [|cbn; discriminate].
      unfold Channel_TransmitStart, bind, deref_channel.
      destruct (w_channels (transmitting _ _ _ _) !! c) as [chan|];
        [|cbn; discriminate].
      unfold device_state, device_queue.
      destruct (channel_peer chan this); cbn; intros [= <-];
        unfold w1; destruct w; cbn in *;
        rewrite list_insert_insert_eq, list_lookup_insert_eq by lia; cbn;
        rewrite Hq, list_lookup_insert_eq by (eapply lookup_lt_Some; eauto);
        auto.
    + intros c chan Hch Hc. rewrite Hch.
      rewrite (Channel_TransmitStart_Some c chan) by (unfold w1; now destruct w).
      destruct (channel_peer chan this); eexists; reflexivity.
Qed.

End TransmitClaims.

(** ** The invariants are kept by every change a call makes *)

Lemma next_event_None l : next_event l = None -> l = [].
Proof.
  destruct l as [|e l]; cbn; [reflexivity|].
  destruct (next_event l) as [[m rest]|]; [destruct (fst m <? fst e)%Z|];
    discriminate.
Qed.

Lemma next_event_pending evs e rest dev :
  next_event evs = Some (e, rest) ->
  pending_TransmitComplete dev evs =
  (if is_TransmitComplete dev e then 1 else 0) + pending_TransmitComplete dev rest.
Proof.
  revert e rest. induction evs as [|e0 evs IH]; intros e rest; cbn; [discriminate|].
  destruct (next_event evs) as [[m rest']|] eqn:Hn.
  - destruct (fst m <? fst e0)%Z; intros [= <- <-]; cbn.
    + rewrite (IH m rest' eq_refl). lia.
    + reflexivity.
  - intros [= <- <-]. now rewrite (next_event_None _ Hn).
Qed.

(** *** Pending completion callbacks *)

Lemma pending_start : pending_invariant [] [].
Proof. intros dev. reflexivity. Qed.

Lemma pending_events devs evs evs' :
  pending_invariant devs evs ->
  (forall dev, pending_TransmitComplete dev evs' = pending_TransmitComplete dev evs) ->
  pending_invariant devs evs'.
Proof. intros P1 Hev dev. now rewrite Hev. Qed.

(** A device is constructed, or copied: it is [READY]. *)
Lemma pending_new_device devs evs d :
  pending_invariant devs evs ->
  m_txMachineState d = READY ->
  pending_invariant (devs ++ [d]) evs.
Proof.
  intros P1 Hst dev. rewrite P1, lookup_app.
  destruct (devs !! dev) eqn:E; [reflexivity|].
  destruct (dev - length devs) as [|k]; cbn; [now rewrite Hst|].
  now destruct k.
Qed.

(** A member other than the state is assigned. *)
Lemma pending_update devs evs this d d' :
  pending_invariant devs evs ->
  devs !! this = Some d ->
  m_txMachineState d' = m_txMachineState d ->
  pending_invariant (<[this := d']> devs) evs.
Proof.
  intros P1 Hd Hst dev. rewrite P1, list_lookup_insert.
  destruct (decide (this = dev ∧ this < length devs)) as [[<- _]|_]; [|reflexivity].
  now rewrite Hd, Hst.
Qed.

(** [TransmitStart]: a [READY] device becomes [BUSY] and its completion
    callback is scheduled, with or without a delivery to the peer. *)
Lemma pending_TransmitStart devs evs this d t extra :
  pending_invariant devs evs ->
  devs !! this = Some d ->
  m_txMachineState d = READY ->
  (forall dev, pending_TransmitComplete dev extra = 0) ->
  pending_invariant (<[this := set_txMachineState BUSY d]> devs)
                    ((evs ++ [(t, EvTransmitComplete this)]) ++ extra).
Proof.
  intros P1 Hd Hst Hex dev.
  assert (Hlt : this < length devs) by (eapply lookup_lt_Some; eauto).
  rewrite !pending_TransmitComplete_app, Hex, P1, list_lookup_insert.
  cbn. unfold is_TransmitComplete. cbn.
  destruct (decide (this = dev ∧ this < length devs)) as [[<- _]|Hn].
  - rewrite Hd, Hst, Nat.eqb_refl. reflexivity.
  - destruct (Nat.eqb_spec this dev) as [->|_]; [tauto|]. lia.
Qed.

(** The completion callback has fired and the device is [READY]. *)
Lemma pending_TransmitComplete_idle devs evs this d t rest :
  pending_invariant devs evs ->
  next_event evs = Some ((t, EvTransmitComplete this), rest) ->
  devs !! this = Some d ->
  pending_invariant (<[this := set_txMachineState READY d]> devs) rest.
Proof.
  intros P1 Hnext Hd dev.
  assert (Hlt : this < length devs) by (eapply lookup_lt_Some; eauto).
  specialize (P1 dev).
  rewrite (next_event_pending _ _ _ dev Hnext) in P1.
  unfold is_TransmitComplete in P1. cbn in P1.
  rewrite list_lookup_insert.
  destruct (decide (this = dev ∧ this < length devs)) as [[<- _]|Hn].
  - rewrite Nat.eqb_refl, Hd in P1. cbn. destruct (m_txMachineState d); lia.
  - destruct (Nat.eqb_spec this dev) as [->|_]; [tauto|]. exact P1.
Qed.

(** A pending completion callback belongs to a [BUSY] device. *)
Lemma pending_BUSY devs evs this t rest :
  pending_invariant devs evs ->
  next_event evs = Some ((t, EvTransmitComplete this), rest) ->
  exists d, devs !! this = Some d /\ m_txMachineState d = BUSY.
Proof.
  intros P1 Hnext. specialize (P1 this).
  rewrite (next_event_pending _ _ _ this Hnext) in P1.
  unfold is_TransmitComplete in P1. cbn in P1. rewrite Nat.eqb_refl in P1.
  destruct (devs !! this) as [d|]; [|lia].
  exists d. split; [reflexivity|]. destruct (m_txMachineState d); [lia|reflexivity].
Qed.

(** *** Queues *)









(** ** What a call that returns has done to the world *)

Lemma update_device_Done this f w w' :
  update_device this f w = Done tt w' ->
  exists d, w_devices w !! this = Some d /\
    w' = set_devices (fun l => <[this := f d]> l) w.
Proof.
  unfold update_device, bind, deref_device.
  destruct (w_devices w !! this) as [d|]; [|discriminate].
  intros [= <-]. eauto.
Qed.

Lemma update_device_no_assert this f w :
  no_assert_failure (update_device this f w).
Proof.
  intros msg. unfold update_device, bind, deref_device.
  destruct (w_devices w !! this); discriminate.
Qed.

Section CallEffects.
Context `{DataRateOps}.

Lemma TransmitStart_Done this p w b w' :
  TransmitStart this p w = Done b w' ->
  exists d t extra,
    w_devices w !! this = Some d /\ m_txMachineState d = READY /\
    w_devices w' = <[this := set_txMachineState BUSY d]> (w_devices w) /\
    w_queues w' = w_queues w /\
    w_events w' = (w_events w ++ [(t, EvTransmitComplete this)]) ++ extra /\
    (forall dev, pending_TransmitComplete dev extra = 0).
Proof.
  destruct (w_devices w !! this) as [d|] eqn:Hd.
  2:{ unfold TransmitStart, bind, deref_device. rewrite Hd. discriminate. }
  destruct (m_txMachineState d) eqn:Hst.
  2:{ rewrite (TransmitStart_BUSY w this d p Hd Hst). discriminate. }
  rewrite (TransmitStart_READY w this d p Hd Hst).
  destruct (m_channel d) as [c|]; [|discriminate].
  destruct (w_channels (transmitting this d p w) !! c) as [chan|] eqn:Hc.
  2:{ unfold Channel_TransmitStart, bind, deref_channel. rewrite Hc. discriminate. }
  rewrite (Channel_TransmitStart_Some c chan _ _ _ Hc).
  destruct w as [devs chans qs now evs fwd]; cbn in *.
  destruct (channel_peer chan this) as [dst|]; intros [= <- <-];
    exists d; eexists; [eexists [_] | exists []];
    cbn; rewrite ?app_nil_r; repeat split; auto.
Qed.

Lemma TransmitStart_READY_no_assert this p w d :
  w_devices w !! this = Some d -> m_txMachineState d = READY ->
  no_assert_failure (TransmitStart this p w).
Proof.
  intros Hd Hst msg. rewrite (TransmitStart_READY w this d p Hd Hst).
  unfold Channel_TransmitStart, bind, deref_channel.
  destruct (m_channel d) as [c|]; [|discriminate].
  destruct (w_channels _ !! c) as [chan|]; [|discriminate].
  destruct (channel_peer chan this); discriminate.
Qed.

Lemma Queue_Enqueue_Done q p w b w' :
  Queue_Enqueue q p w = Done b w' ->
  exists i qu',
    q = Some i /\ w_devices w' = w_devices w /\ w_events w' = w_events w /\
    (w_queues w' = w_queues w \/ w_queues w' = <[i := qu']> (w_queues w)).
Proof.
  unfold Queue_Enqueue, bind, deref_queue.
  destruct q as [i|]; [|discriminate].
  destruct (w_queues w !! i) as [qu|]; [|discriminate].
  destruct w as [devs chans qs now evs fwd]; cbn in *.
  destruct (queue_full qu); intros [= <- <-]; exists i;
    [exists qu | eexists]; cbn; eauto.
Qed.

Lemma Queue_Enqueue_no_assert q p w :
  no_assert_failure (Queue_Enqueue q p w).
Proof.
  intros msg. unfold Queue_Enqueue, bind, deref_queue.
  destruct q as [i|]; [|discriminate].
  destruct (w_queues w !! i) as [qu|]; [|discriminate].
  destruct (queue_full qu); discriminate.
Qed.

Lemma Attach_Done this ch w b w' :
  Attach this ch w = Done b w' ->
  exists d d',
    w_devices w !! this = Some d /\
    w_devices w' = <[this := d']> (w_devices w) /\
    m_txMachineState d' = m_txMachineState d /\ m_queue d' = m_queue d /\
    w_queues w' = w_queues w /\ w_events w' = w_events w.
Proof.
  destruct w as [devs chans qs now evs fwd]. unfold Attach. unfold_sim. cbn.
  destruct (devs !! this) as [d|] eqn:Hd; [|discriminate]. sim_eval.
  destruct ch as [c|]; [|discriminate]. sim_eval.
  destruct (chans !! c) as [chan|] eqn:Hc; [|discriminate]. sim_eval.
  destruct (existsb _ _); [|destruct (_ <=? 1)]; sim_eval;
    intros [= <- <-]; exists d; eexists; cbn; repeat split; eauto.
Qed.

Lemma Attach_no_assert this ch w : no_assert_failure (Attach this ch w).
Proof.
  intros msg.
  destruct w as [devs chans qs now evs fwd]. unfold Attach. unfold_sim. cbn.
  destruct (devs !! this) as [d|] eqn:Hd; [|discriminate]. sim_eval.
  destruct ch as [c|]; [|discriminate]. sim_eval.
  destruct (chans !! c) as [chan|] eqn:Hc; [|discriminate]. sim_eval.
  destruct (existsb _ _); [|destruct (_ <=? 1)]; sim_eval; discriminate.
Qed.

(** What a completion callback that returns has done: either the queue was
    empty and the device is [READY], or the front packet left the queue and
    is being transmitted. *)
Lemma TransmitComplete_Done this w w' d :
  w_devices w !! this = Some d ->
  m_txMachineState d = BUSY ->
  TransmitComplete this w = Done tt w' ->
  exists q qu,
    m_queue d = Some q /\ w_queues w !! q = Some qu /\
    ((q_packets qu = [] /\
      w_devices w' = <[this := set_txMachineState READY d]> (w_devices w) /\
      w_queues w' = w_queues w /\ w_events w' = w_events w) \/
     (exists p rest t extra,
        q_packets qu = p :: rest /\
        w_devices w' = <[this := d]> (w_devices w) /\
        w_queues w' =
          <[q := {| q_packets := rest; q_maxPackets := q_maxPackets qu |}]>
            (w_queues w) /\
        w_events w' = (w_events w ++ [(t, EvTransmitComplete this)]) ++ extra /\
        (forall dev, pending_TransmitComplete dev extra = 0))).
Proof.
  intros Hd Hst.
  assert (Hlt : this < length (w_devices w)) by (eapply lookup_lt_Some; eauto).
  rewrite (TransmitComplete_BUSY_run w this d Hd Hst).
  unfold bind at 1. unfold Queue_Dequeue, bind at 1, deref_queue.
  destruct (m_queue d) as [q|] eqn:Hq; [|discriminate].
  destruct w as [devs chans qs now evs fwd]; cbn in *.
  destruct (qs !! q) as [qu|] eqn:Hqu; [|discriminate].
  destruct (q_packets qu) as [|p rest] eqn:Hpk.
  - intros [= <-]. exists q, qu. split; [reflexivity|]. split; [exact Hqu|].
    left. cbn. auto.
  - unfold bind.
    match goal with |- context [TransmitStart this p ?w1] =>
      destruct (TransmitStart this p w1) as [b w2|e] eqn:Hts
    end; [|discriminate].
    intros [= <-]. exists q, qu. split; [reflexivity|]. split; [exact Hqu|].
    right.
    apply TransmitStart_Done in Hts
      as (d1 & t1 & extra & Hd1 & Hst1 & -> & -> & -> & Hex).
    cbn in *. rewrite list_lookup_insert_eq in Hd1 by assumption.
    injection Hd1 as <-. rewrite list_insert_insert_eq.
    exists p, rest, t1, extra. split; [exact Hpk|].
    split; [|auto]. f_equal. destruct d; cbn in *. now subst.
Qed.

End CallEffects.

Section Reachability.
Context `{DataRateOps}.

(** The completion callback of a [BUSY] device fails no assertion. *)
Lemma TransmitComplete_BUSY_no_assert w this d :
  w_devices w !! this = Some d ->
  m_txMachineState d = BUSY ->
  no_assert_failure (TransmitComplete this w).
Proof.
  intros Hd Hst msg. rewrite (TransmitComplete_BUSY_run w this d Hd Hst).
  assert (Hlt : this < length (w_devices w)) by (eapply lookup_lt_Some; eauto).
  unfold bind at 1. unfold Queue_Dequeue, bind at 1, deref_queue.
  destruct (m_queue d) as [q|]; [|discriminate].
  destruct (w_queues _ !! q) as [qu|]; [|discriminate].
  destruct (q_packets qu) as [|p rest]; [discriminate|].
  unfold bind.
  match goal with |- context [TransmitStart this p ?w1] =>
    pose proof (TransmitStart_READY_no_assert this p w1
                  (set_txMachineState READY d)) as Hno;
    destruct (TransmitStart this p w1) as [b w2|e]
  end; [discriminate|].
  intros [= ->]. eapply Hno; eauto.
  destruct w; cbn in *. now apply list_lookup_insert_eq.
Qed.

(** A call, whatever it is, keeps the count of pending callbacks. *)
Lemma perform_pending c w w' :
  pending_invariant (w_devices w) (w_events w) ->
  perform c w = Done tt w' ->
  pending_invariant (w_devices w') (w_events w').
Proof.
  intros P1. destruct c; cbn [perform].
  - intros [= <-]. cbn. now apply pending_new_device.
  - unfold Copy_Device, bind, deref_device.
    destruct (w_devices w !! dev) as [d|]; [|discriminate].
    intros [= <-]. cbn. now apply pending_new_device.
  - intros [= <-]. exact P1.
  - intros [= <-]. exact P1.
  - intros (d & Hd & ->)%update_device_Done. cbn.
    eapply pending_update; eauto.
  - intros (d & Hd & ->)%update_device_Done. cbn.
    eapply pending_update; eauto.
  - unfold bind. destruct (Attach dev ch w) as [b w1|e] eqn:Hatt; [|discriminate].
    intros [= <-].
    apply Attach_Done in Hatt as (d & d' & Hd & -> & Hst & Hq & _ & ->).
    eapply pending_update; eauto.
  - intros (d & Hd & ->)%update_device_Done. cbn.
    eapply pending_update; eauto.
  - unfold bind. destruct (SendTo dev p dest w) as [b w1|e] eqn:Hsend; [|discriminate].
    intros [= <-]. revert Hsend.
    unfold SendTo, IsLinkUp, bind, deref_device, ret.
    destruct (w_devices w !! dev) as [d|] eqn:Hd; [|discriminate].
    destruct (m_isUp d); [|discriminate]. cbn. rewrite Hd.
    destruct (m_txMachineState d) eqn:Hst.
    + intros (d1 & t1 & extra & Hd1 & Hst1 & -> & _ & -> & Hex)%TransmitStart_Done.
      eapply pending_TransmitStart; eauto.
    + now intros (q & qu' & Hq & -> & -> & _)%Queue_Enqueue_Done.
  - unfold Simulator_RunOne.
    destruct (next_event (w_events w)) as [[[t [dev|dev p]] rest]|] eqn:Hnext.
    + destruct (pending_BUSY _ _ _ _ _ P1 Hnext) as (d & Hd & Hst).
      intros Htc.
      apply (TransmitComplete_Done dev _ _ d) in Htc; [|now destruct w|assumption].
      destruct Htc as (q & qu & Hq & Hqu &
        [(Hpk & -> & _ & ->)|(p & restq & t1 & extra & Hpk & -> & _ & -> & Hex)]);
        cbn.
      * destruct w; cbn in *. eapply pending_TransmitComplete_idle; eauto.
      * destruct w as [devs chans qs now evs fwd]; cbn in *.
        rewrite list_insert_id by assumption.
        eapply pending_events; [exact P1|].
        intros dev0. rewrite (next_event_pending _ _ _ dev0 Hnext).
        rewrite !pending_TransmitComplete_app, Hex. cbn. lia.
    + intros [= <-]. cbn. eapply pending_events; eauto.
      intros dev0. now rewrite (next_event_pending _ _ _ dev0 Hnext).
    + now intros [= <-].
Qed.


Lemma reachable_pending allowed w :
  reachable allowed w -> pending_invariant (w_devices w) (w_events w).
Proof.
  induction 1 as [|w c w' _ IH _ Hstep].
  - apply pending_start.
  - eapply perform_pending; eauto.
Qed.


Lemma run_within_reachable allowed cs w w' :
  reachable allowed w -> run_within allowed cs w = Some w' ->
  reachable allowed w'.
Proof.
  revert w. induction cs as [|c cs IH]; intros w Hw; cbn.
  - now intros [= <-].
  - destruct (allowed w c) eqn:Hc; [|discriminate].
    destruct (perform c w) as [[] w1|e] eqn:Hp; [|discriminate].
    apply IH. eapply reachable_call; eauto.
Qed.

End Reachability.

Section InvariantClaims.
Context `{DataRateOps}.

Lemma no_assert_failure_bind {A B} (m : Sim A) (k : A -> Sim B) w :
  no_assert_failure (m w) ->
  (forall a w1, m w = Done a w1 -> no_assert_failure (k a w1)) ->
  no_assert_failure (bind m k w).
Proof.
  intros Hm Hk msg. unfold bind.
  destruct (m w) as [a w1|e] eqn:E; [now apply Hk|].
  intros [= ->]. now apply (Hm msg).
Qed.

(** From a quiescent state of a run, a call within the usage contract fails
    no assertion. *)
Lemma perform_no_assert c w :
  pending_invariant (w_devices w) (w_events w) ->
  contract w c = true ->
  no_assert_failure (perform c w).
Proof.
  intros P1 Hc. destruct c; cbn [perform contract] in *.
  - intros msg; discriminate.
  - intros msg. unfold Copy_Device, bind, deref_device.
    destruct (w_devices w !! dev); discriminate.
  - intros msg; discriminate.
  - intros msg; discriminate.
  - apply update_device_no_assert.
  - apply update_device_no_assert.
  - apply no_assert_failure_bind; [apply Attach_no_assert|].
    intros a w1 _ msg; discriminate.
  - apply update_device_no_assert.
  - destruct (w_devices w !! dev) as [d|] eqn:Hd; [|discriminate].
    apply no_assert_failure_bind; [|intros a w1 _ msg; discriminate].
    rewrite (SendTo_up w dev d) by assumption.
    destruct (m_txMachineState d) eqn:Hst.
    + eapply TransmitStart_READY_no_assert; eauto.
    + apply Queue_Enqueue_no_assert.
  - unfold Simulator_RunOne.
    destruct (next_event (w_events w)) as [[[t [dev|dev p]] rest]|] eqn:Hnext;
      [|intros msg; discriminate|intros msg; discriminate].
    destruct (pending_BUSY _ _ _ _ _ P1 Hnext) as (d & Hd & Hst).
    eapply TransmitComplete_BUSY_no_assert; [|eassumption].
    now destruct w.
Qed.


(** C7: for every device, in every state reached by any interleaving of
    calls and scheduled callbacks, at most one [TransmitComplete] callback
    of the device is scheduled and not yet fired; there is one exactly when
    the device is [BUSY]. *)
Theorem one_TransmitComplete_pending (allowed : World -> Call -> bool)
    (w : World) (dev : DevPtr) :
  reachable allowed w ->
  pending_TransmitComplete dev (w_events w) <= 1 /\
  (pending_TransmitComplete dev (w_events w) = 1 <->
   device_state w dev = Some BUSY).
Proof.
  intros Hw. rewrite (reachable_pending allowed w Hw dev). unfold device_state.
  destruct (w_devices w !! dev) as [d|]; cbn.
  - destruct (m_txMachineState d); split; try lia; split; congruence.
  - split; [lia|]. split; [lia | discriminate].
Qed.

(** C6: [SendTo] while the link is down, and [TransmitStart] while the
    transmitter is [BUSY], abort the simulation on their assertion; and from
    a quiescent state of a run, whatever the calls before, no call breaks an
    assertion as long as [SendTo] is called with the link up:
    [TransmitStart] is then only reached from [SendTo] on a [READY] device
    and from [TransmitComplete]. *)
Theorem contract_violations_abort (w : World) (this : DevPtr)
    (d : PointToPointNetDevice) (p : Packet) (dest : MacAddress) :
  w_devices w !! this = Some d ->
  (m_isUp d = false ->
     SendTo this p dest w = Aborted (AssertFailure "IsLinkUp ()")) /\
  (m_txMachineState d = BUSY ->
     TransmitStart this p w =
       Aborted (AssertFailure "Must be READY to transmit")) /\
  (forall allowed w0 c, reachable allowed w0 -> contract w0 c = true ->
     no_assert_failure (perform c w0)).
Proof.
  intros Hd. split; [|split].
  - intros Hup. unfold SendTo, IsLinkUp, bind, deref_device, ret.
    now rewrite Hd, Hup.
  - intros Hst. now apply (TransmitStart_BUSY w this d).
  - intros allowed w0 c Hw0 Hc. apply perform_no_assert; [|assumption].
    now apply (reachable_pending allowed).
Qed.

End InvariantClaims.

Section FailureClaims.
Context `{DataRateOps}.

(** C9: [TransmitStart (p)] consults the channel only after the transmitter
    is [BUSY] and the completion callback is scheduled.  So when the channel
    has no peer and answers [false], [SendTo] returns [false], yet the device
    is [BUSY], its completion callback is scheduled at
    [now + txTime + interframeGap], packets sent in the meantime are handed
    to the queue, and on an otherwise idle simulation the device is [READY]
    again only when that callback has fired, at that time. *)
Theorem SendTo_without_peer (w : World) (this : DevPtr)
    (d : PointToPointNetDevice) (c : nat) (chan : PointToPointChannel)
    (p : Packet) (dest : MacAddress) :
  w_devices w !! this = Some d ->
  m_isUp d = true ->
  m_txMachineState d = READY ->
  m_channel d = Some c ->
  w_channels w !! c = Some chan ->
  channel_peer chan this = None ->
  let t := (w_now w + CalculateTxTime (m_bps d) (GetSize p) + m_tInterframeGap d)%Z in
  TransmitStart this p w =
    Channel_TransmitStart (m_channel d) p this (transmitting this d p w) /\
  exists w',
    SendTo this p dest w = Done false w' /\
    device_state w' this = Some BUSY /\
    w_now w' = w_now w /\
    TransmitComplete_times this (w_events w') =
      TransmitComplete_times this (w_events w) ++ [t] /\
    (forall p2 dest2,
       SendTo this p2 dest2 w' = Queue_Enqueue (m_queue d) p2 w') /\
    (forall q qu,
       w_events w = [] -> m_queue d = Some q -> w_queues w !! q = Some qu ->
       q_packets qu = [] ->
       exists w'',
         Simulator_RunOne w' = Done tt w'' /\
         w_now w'' = t /\
         device_state w'' this = Some READY /\
         w_events w'' = []).
Proof.
  intros Hd Hup Hst Hch Hc Hpeer t.
  assert (Hlt : this < length (w_devices w)) by (eapply lookup_lt_Some; eauto).
  pose proof (TransmitStart_READY w this d p Hd Hst) as Hts.
  split; [exact Hts|].
  exists (transmitting this d p w).
  assert (Hd' : w_devices (transmitting this d p w) !! this =
                Some (set_txMachineState BUSY d)).
  { destruct w; cbn in *. now apply list_lookup_insert_eq. }
  split; [|split; [|split; [|split; [|split]]]].
  - rewrite (SendTo_up w this d) by assumption. rewrite Hst, Hts, Hch.
    rewrite (Channel_TransmitStart_Some c chan) by (now destruct w).
    now rewrite Hpeer.
  - unfold device_state. now rewrite Hd'.
  - now destruct w.
  - destruct w; cbn. rewrite TransmitComplete_times_app. cbn.
    rewrite Nat.eqb_refl. subst t. cbn. do 2 f_equal. lia.
  - intros p2 dest2.
    now rewrite (SendTo_up _ this _ p2 dest2 Hd' Hup).
  - intros q qu Hev Hq Hqu Hpk.
    unfold Simulator_RunOne.
    destruct w as [devs chans qs now evs fwd]; cbn in *. subst evs. cbn.
    erewrite TransmitComplete_BUSY_run
      by (cbn; first [apply list_lookup_insert_eq; assumption | reflexivity]).
    cbn. rewrite Hq. unfold Queue_Dequeue, bind, deref_queue. cbn.
    rewrite Hqu, Hpk. cbn. eexists. split; [reflexivity|]. cbn.
    split; [subst t; cbn; lia|]. split; [|reflexivity].
    unfold device_state. cbn.
    rewrite list_lookup_insert_eq by (now rewrite length_insert).
    reflexivity.
Qed.

(** C10: [SendTo] checks the link and nothing else.  On a device whose queue
    pointer is null, [SendTo] with the link up on a [BUSY] transmitter and
    [TransmitComplete] dereference the null pointer; that happens at every
    completion callback the kernel fires for the device in a run.  No
    assertion fails and nothing is returned, while on a [READY] transmitter
    [SendTo] transmits as if the queue were there. *)
Theorem queue_absent_not_checked (w : World) (this : DevPtr)
    (d : PointToPointNetDevice) (p : Packet) (dest : MacAddress) :
  w_devices w !! this = Some d ->
  m_queue d = null ->
  (m_isUp d = true -> m_txMachineState d = BUSY ->
     SendTo this p dest w = Aborted NullPointer) /\
  (m_txMachineState d = BUSY ->
     TransmitComplete this w = Aborted NullPointer) /\
  (forall allowed t rest, reachable allowed w ->
     next_event (w_events w) = Some ((t, EvTransmitComplete this), rest) ->
     Simulator_RunOne w = Aborted NullPointer) /\
  (m_isUp d = true -> no_assert_failure (SendTo this p dest w)) /\
  (m_isUp d = true -> m_txMachineState d = READY ->
     SendTo this p dest w = TransmitStart this p w).
Proof.
  intros Hd Hq.
  pose proof (SendTo_up w this d p dest Hd) as Hsend.
  assert (Htc : forall w1, w_devices w1 = w_devices w ->
            w_queues w1 = w_queues w -> m_txMachineState d = BUSY ->
            TransmitComplete this w1 = Aborted NullPointer).
  { intros w1 Hdevs Hqs Hst.
    rewrite (TransmitComplete_BUSY_run w1 this d) by congruence.
    now rewrite Hq. }
  split; [|split; [|split; [|split]]].
  - intros Hup Hst. now rewrite (Hsend Hup), Hst, Hq.
  - intros Hst. now apply Htc.
  - intros allowed t rest Hw Hnext. unfold Simulator_RunOne. rewrite Hnext.
    destruct (pending_BUSY _ _ _ _ _ (reachable_pending allowed w Hw) Hnext)
      as (d0 & Hd0 & Hst).
    rewrite Hd in Hd0. injection Hd0 as <-.
    apply Htc; [now destruct w | now destruct w | assumption].
  - intros Hup. rewrite (Hsend Hup). destruct (m_txMachineState d) eqn:Hst.
    + eapply TransmitStart_READY_no_assert; eauto.
    + apply Queue_Enqueue_no_assert.
  - intros Hup Hst. now rewrite (Hsend Hup), Hst.
Qed.

End FailureClaims.

(** ** Router IDs *)



(** ** The claims on the scenarios *)

Lemma Attach_records_channel_witness :
  exists w',
    Attach 0 (Some 0) unattached_world = Done true w' /\
    m_channel <$> w_devices w' !! 0 = Some (Some 0) /\
    m_bps <$> w_devices w' !! 0 = Some 10000000%Z /\
    m_tInterframeGap <$> w_devices w' !! 0 = Some 2000000%Z /\
    IsLinkUp 0 w' = Done true w'.
Proof.
  destruct (Attach_records_channel unattached_world 0
              (set_queue (Some 0) (PointToPointNetDevice_new 10000000)) 0
              (the_channel []))
    as (w' & Hrun & Hdev & Hup & _);
    [vm_compute; reflexivity | vm_compute; reflexivity |].
  exists w'. rewrite Hdev. cbn. auto.
Defined.

Lemma TransmitStart_schedules_completion_witness :
  exists b w',
    @TransmitStart nanosecond_ticks 0 (packet 1) one_sided_world = Done b w' /\
    w_now w' = 0%Z /\
    TransmitComplete_times 0 (w_events w') = [3000000%Z].
Proof.
  destruct (@TransmitStart_schedules_completion nanosecond_ticks
              one_sided_world 0 (attached_device READY (Some 0)) 0
              (the_channel [0]) (packet 1))
    as (b & w' & Hrun & Hnow & Htimes);
    [vm_compute; reflexivity | reflexivity | reflexivity
    | vm_compute; reflexivity |].
  exists b, w'. rewrite Hnow, Htimes. auto.
Defined.

Lemma SendTo_link_up_witness :
  (@SendTo nanosecond_ticks 0 (packet 1) [] one_sided_world =
   @TransmitStart nanosecond_ticks 0 (packet 1) one_sided_world) /\
  (exists w',
     @SendTo nanosecond_ticks 0 (packet 2) [] sending_world = Done true w' /\
     device_state w' 0 = Some BUSY /\
     device_queue w' 0 = Some [packet 2]) /\
  (exists w',
     @SendTo nanosecond_ticks 0 (packet 3) [] waiting_world = Done false w' /\
     device_state w' 0 = Some BUSY /\
     device_queue w' 0 = Some [packet 2]).
Proof.
  split; [|split].
  - destruct (@SendTo_link_up nanosecond_ticks one_sided_world 0
                (attached_device READY (Some 0)) 0 (the_queue [])
                (packet 1) []) as [Hready _];
      [vm_compute; reflexivity | reflexivity | reflexivity
      | vm_compute; reflexivity |].
    apply Hready. reflexivity.
  - destruct (@SendTo_link_up nanosecond_ticks sending_world 0
                (attached_device BUSY (Some 0)) 0 (the_queue [])
                (packet 2) []) as [_ Hbusy];
      [vm_compute; reflexivity | reflexivity | reflexivity
      | vm_compute; reflexivity |].
    destruct (Hbusy eq_refl) as (_ & w' & Hrun & _ & Hst & _ & Hq).
    exists w'. auto.
  - destruct (@SendTo_link_up nanosecond_ticks waiting_world 0
                (attached_device BUSY (Some 0)) 0 (the_queue [packet 2])
                (packet 3) []) as [_ Hbusy];
      [vm_compute; reflexivity | reflexivity | reflexivity
      | vm_compute; reflexivity |].
    destruct (Hbusy eq_refl) as (_ & w' & Hrun & _ & Hst & _ & Hq).
    exists w'. auto.
Defined.

Lemma TransmitComplete_BUSY_witness :
  (exists w',
     @TransmitComplete nanosecond_ticks 0 sending_world = Done tt w' /\
     device_state w' 0 = Some READY /\ w_events w' = w_events sending_world) /\
  (exists w',
     @TransmitComplete nanosecond_ticks 0 waiting_world = Done tt w' /\
     device_state w' 0 = Some BUSY /\ device_queue w' 0 = Some []).
Proof.
  split.
  - destruct (@TransmitComplete_BUSY nanosecond_ticks sending_world 0
                (attached_device BUSY (Some 0)) 0 (the_queue []))
      as [Hidle _];
      [vm_compute; reflexivity | reflexivity | reflexivity
      | vm_compute; reflexivity |].
    eexists. split; [apply Hidle; reflexivity|]. split; reflexivity.
  - destruct (@TransmitComplete_BUSY nanosecond_ticks waiting_world 0
                (attached_device BUSY (Some 0)) 0 (the_queue [packet 2]))
      as [_ Hnext];
      [vm_compute; reflexivity | reflexivity | reflexivity
      | vm_compute; reflexivity |].
    destruct (Hnext (packet 2) [] eq_refl) as (_ & Hdone & Hret).
    destruct (Hret 0 (the_channel [0]) eq_refl eq_refl) as (w' & Hrun).
    exists w'. split; [exact Hrun|]. now apply Hdone.
Defined.

Lemma back_to_back_reachable :
  @reachable nanosecond_ticks own_queue back_to_back_world.
Proof.
  eapply run_within_reachable with (cs := back_to_back);
    [apply reachable_start | vm_compute; reflexivity].
Qed.

Lemma no_queue_reachable :
  @reachable nanosecond_ticks any_call no_queue_world.
Proof.
  eapply run_within_reachable
    with (cs := no_queue_setup ++ [CallSendTo 0 (packet 1) []]);
    [apply reachable_start | vm_compute; reflexivity].
Qed.


Lemma one_TransmitComplete_pending_witness :
  @reachable nanosecond_ticks own_queue back_to_back_world /\
  pending_TransmitComplete 0 (w_events back_to_back_world) <= 1.
Proof.
  split; [exact back_to_back_reachable|].
  apply (@one_TransmitComplete_pending nanosecond_ticks own_queue
           back_to_back_world 0).
  exact back_to_back_reachable.
Defined.

Lemma contract_violations_abort_witness :
  @SendTo nanosecond_ticks 0 (packet 1) [] unattached_world =
    Aborted (AssertFailure "IsLinkUp ()") /\
  @TransmitStart nanosecond_ticks 0 (packet 2) sending_world =
    Aborted (AssertFailure "Must be READY to transmit") /\
  no_assert_failure
    (@perform nanosecond_ticks (CallSendTo 0 (packet 4) []) back_to_back_world).
Proof.
  split; [|split].
  - destruct (@contract_violations_abort nanosecond_ticks unattached_world 0
                (set_queue (Some 0) (PointToPointNetDevice_new 10000000))
                (packet 1) []) as (Hdown & _ & _); [vm_compute; reflexivity|].
    apply Hdown. reflexivity.
  - destruct (@contract_violations_abort nanosecond_ticks sending_world 0
                (attached_device BUSY (Some 0)) (packet 2) [])
      as (_ & Hbusy & Hrun); [vm_compute; reflexivity|].
    apply Hbusy. reflexivity.
  - destruct (@contract_violations_abort nanosecond_ticks sending_world 0
                (attached_device BUSY (Some 0)) (packet 2) [])
      as (_ & _ & Hrun); [vm_compute; reflexivity|].
    apply (Hrun own_queue); [exact back_to_back_reachable | reflexivity].
Defined.

Lemma SendTo_without_peer_witness :
  exists w',
    @SendTo nanosecond_ticks 0 (packet 1) [] one_sided_world = Done false w' /\
    device_state w' 0 = Some BUSY /\
    TransmitComplete_times 0 (w_events w') = [3000000%Z] /\
    exists w'',
      @Simulator_RunOne nanosecond_ticks w' = Done tt w'' /\
      w_now w'' = 3000000%Z /\ device_state w'' 0 = Some READY.
Proof.
  destruct (@SendTo_without_peer nanosecond_ticks one_sided_world 0
              (attached_device READY (Some 0)) 0 (the_channel [0]) (packet 1) [])
    as (_ & w' & Hrun & Hst & _ & Htimes & _ & Hfire);
    [vm_compute; reflexivity | reflexivity | reflexivity | reflexivity
    | vm_compute; reflexivity | reflexivity |].
  exists w'. split; [exact Hrun|]. split; [exact Hst|]. split; [exact Htimes|].
  destruct (Hfire 0 (the_queue []) eq_refl eq_refl eq_refl eq_refl)
    as (w'' & Hone & Hnow & Hready & _).
  exists w''. auto.
Defined.

Lemma queue_absent_not_checked_witness :
  @SendTo nanosecond_ticks 0 (packet 2) [] no_queue_world = Aborted NullPointer /\
  @TransmitComplete nanosecond_ticks 0 no_queue_world = Aborted NullPointer /\
  @Simulator_RunOne nanosecond_ticks no_queue_world = Aborted NullPointer.
Proof.
  destruct (@queue_absent_not_checked nanosecond_ticks no_queue_world 0
              (attached_device BUSY null) (packet 2) [])
    as (Hsend & Htc & Hrun & _);
    [vm_compute; reflexivity | reflexivity |].
  split; [apply Hsend; reflexivity|]. split; [apply Htc; reflexivity|].
  eapply Hrun; [exact no_queue_reachable | vm_compute; reflexivity].
Defined.

(** The first three routers of a run get [0.0.0.1], [0.0.0.2], [0.0.0.3]. *)
Example router_ids_three :
  map (fun r => GetRouterId r) (fst (create_routers [7; 8; 9] RoutingEnvironment_start)) =
  [dotted 0 0 0 1; dotted 0 0 0 2; dotted 0 0 0 3].
Proof. reflexivity. Qed.

(** Scenario S4: of three packets sent back to back into a queue of
    capacity 1, the first is transmitted, the second waits and the third is
    dropped. *)
Example back_to_back_drop :
  @SendTo nanosecond_ticks 0 (packet 3) [] waiting_world = Done false waiting_world.
Proof. reflexivity. Qed.

(** The kernel fires the earliest event, and of two events at the same
    time the one scheduled first. *)
Example next_event_order :
  next_event [(5%Z, EvTransmitComplete 0); (3%Z, EvReceive 1 (packet 1));
              (3%Z, EvTransmitComplete 1)] =
  Some ((3%Z, EvReceive 1 (packet 1)),
        [(5%Z, EvTransmitComplete 0); (3%Z, EvTransmitComplete 1)]).
Proof. reflexivity. Qed.

(** A channel takes two devices, the same device twice without effect, and
    rejects a third one, which [Attach] of the device does not notice. *)
Example third_attach :
  exists w',
    @run_within nanosecond_ticks any_call
      (two_sided_setup ++
       [CallAttach 1 (Some 0); NewDevice 10000000; CallAttach 2 (Some 0)])
      empty_world = Some w' /\
    ch_devices <$> w_channels w' !! 0 = Some [0; 1] /\
    m_isUp <$> w_devices w' !! 2 = Some true.
Proof. eexists. split; [vm_compute; reflexivity|]. split; reflexivity. Qed.

(** At the end of the back-to-back scenario the first packet has reached
    the peer, the second is on the wire and the third was never queued. *)
Example back_to_back_end :
  w_forwarded back_to_back_world = [(1, packet 1)] /\
  device_state back_to_back_world 0 = Some BUSY /\
  device_queue back_to_back_world 0 = Some [] /\
  w_events back_to_back_world =
    [(6000000%Z, EvTransmitComplete 0); (5000000%Z, EvReceive 1 (packet 2))].
Proof. repeat split; reflexivity. Qed.

(** * More properties of the device *)

(** ** What a call that returns has done, exactly *)

Section ExactEffects.
Context `{DataRateOps}.

(** The world after [TransmitStart]: the one in which the channel was
    consulted, with the delivery to the peer when there is one. *)
Lemma TransmitStart_exact this p w b w' :
  TransmitStart this p w = Done b w' ->
  exists d c chan,
    w_devices w !! this = Some d /\ m_txMachineState d = READY /\
    m_channel d = Some c /\ w_channels w !! c = Some chan /\
    match channel_peer chan this with
    | Some dst =>
        b = true /\
        w' = set_events (fun l =>
               l ++ [((w_now w + ch_delay chan)%Z, EvReceive dst p)])
             (transmitting this d p w)
    | None => b = false /\ w' = transmitting this d p w
    end.
Proof.
  destruct (w_devices w !! this) as [d|] eqn:Hd.
  2:{ unfold TransmitStart, bind, deref_device. rewrite Hd. discriminate. }
  destruct (m_txMachineState d) eqn:Hst.
  2:{ rewrite (TransmitStart_BUSY w this d p Hd Hst). discriminate. }
  rewrite (TransmitStart_READY w this d p Hd Hst).
  destruct (m_channel d) as [c|] eqn:Hch; [|discriminate].
  destruct (w_channels (transmitting this d p w) !! c) as [chan|] eqn:Hc.
  2:{ unfold Channel_TransmitStart, bind, deref_channel. rewrite Hc. discriminate. }
  rewrite (Channel_TransmitStart_Some c chan _ _ _ Hc).
  assert (Hc' : w_channels w !! c = Some chan) by (now destruct w).
  assert (Hnow : w_now (transmitting this d p w) = w_now w) by (now destruct w).
  intros Hrun. exists d, c, chan. repeat (split; [assumption || reflexivity|]).
  destruct (channel_peer chan this); injection Hrun as <- <-;
    rewrite ?Hnow; auto.
Qed.

Lemma Queue_Enqueue_exact q p w b w' :
  Queue_Enqueue q p w = Done b w' ->
  exists i qu,
    q = Some i /\ w_queues w !! i = Some qu /\ b = negb (queue_full qu) /\
    w' = if queue_full qu then w
         else set_queues (fun l =>
                <[i := {| q_packets := q_packets qu ++ [p];
                          q_maxPackets := q_maxPackets qu |}]> l) w.
Proof.
  unfold Queue_Enqueue, bind, deref_queue.
  destruct q as [i|]; [|discriminate].
  destruct (w_queues w !! i) as [qu|] eqn:Hqu; [|discriminate].
  intros Hrun. exists i, qu. split; [reflexivity|]. split; [exact Hqu|].
  destruct (queue_full qu); injection Hrun as <- <-; auto.
Qed.

End ExactEffects.

(** ** Configuration *)

Lemma update_device_bind {A} this f (k : Sim A) w d :
  w_devices w !! this = Some d ->
  (exec update_device this f ;; k) w =
  k (set_devices (fun l => <[this := f d]> l) w).
Proof.
  intros Hd. unfold bind at 1. unfold update_device, bind, deref_device.
  now rewrite Hd.
Qed.

Lemma lookup_set_devices this d' w d :
  w_devices w !! this = Some d ->
  w_devices (set_devices (fun l => <[this := d']> l) w) !! this = Some d'.
Proof.
  intros Hd. destruct w; cbn in *. apply list_lookup_insert_eq.
  eapply lookup_lt_Some; eauto.
Qed.

(** The world after [Attach]. *)
Lemma Attach_exact w this d c chan :
  w_devices w !! this = Some d ->
  w_channels w !! c = Some chan ->
  exists devs',
    Attach this (Some c) w =
    Done true
      {| w_devices :=
           <[this := {| m_txMachineState := m_txMachineState d;
                        m_bps := ch_bps chan;
                        m_tInterframeGap := ch_delay chan;
                        m_channel := Some c;
                        m_queue := m_queue d;
                        m_isUp := true |}]> (w_devices w);
         w_channels :=
           <[c := {| ch_bps := ch_bps chan; ch_delay := ch_delay chan;
                     ch_devices := devs' |}]> (w_channels w);
         w_queues := w_queues w; w_now := w_now w; w_events := w_events w;
         w_forwarded := w_forwarded w |}.
Proof.
  destruct w as [devs chans qs now evs fwd]. cbn. intros Hd Hc.
  assert (Hid : <[c := {| ch_bps := ch_bps chan; ch_delay := ch_delay chan;
                          ch_devices := ch_devices chan |}]> chans = chans).
  { apply list_insert_id. rewrite Hc. now destruct chan. }
  unfold_sim. sim_eval.
  destruct (existsb _ _); [|destruct (_ <=? 1)]; sim_eval.
  - exists (ch_devices chan). now rewrite Hid.
  - now exists (ch_devices chan ++ [this]).
  - exists (ch_devices chan). now rewrite Hid.
Qed.

Section Configuration.
Context `{DataRateOps}.

(** X1: [Attach] overwrites the data rate and the interframe gap that were
    set before it: the next transmission is timed with the channel's rate,
    and completes the channel's propagation delay after the last bit. *)
Theorem Attach_overrides_setters (w : World) (this : DevPtr)
    (d : PointToPointNetDevice) (c : nat) (chan : PointToPointChannel)
    (r : DataRate) (t : Time) (p : Packet) :
  w_devices w !! this = Some d ->
  m_txMachineState d = READY ->
  w_channels w !! c = Some chan ->
  exists b w',
    (exec SetDataRate this r ;; exec SetInterframeGap this t ;;
     exec Attach this (Some c) ;; TransmitStart this p) w = Done b w' /\
    TransmitComplete_times this (w_events w') =
      TransmitComplete_times this (w_events w) ++
      [(w_now w + CalculateTxTime (ch_bps chan) (GetSize p) + ch_delay chan)%Z].
Proof.
  intros Hd Hst Hc. unfold SetDataRate, SetInterframeGap.
  rewrite (update_device_bind this _ _ w d Hd).
  pose proof (lookup_set_devices this (set_bps r d) w d Hd) as Hd1.
  rewrite (update_device_bind this _ _ _ _ Hd1).
  match goal with |- context [bind (Attach this (Some c)) _ ?w2] =>
    set (w1 := w2) end.
  assert (Hd2 : w_devices w1 !! this = Some (set_tInterframeGap t (set_bps r d))).
  { unfold w1. eapply lookup_set_devices; eauto. }
  assert (Hc1 : w_channels w1 !! c = Some chan) by (unfold w1; now destruct w).
  assert (Hev1 : w_events w1 = w_events w) by (unfold w1; now destruct w).
  assert (Hnow1 : w_now w1 = w_now w) by (unfold w1; now destruct w).
  clearbody w1.
  destruct (Attach_exact w1 this _ c chan Hd2 Hc1) as (devs' & Hatt).
  unfold bind at 1. rewrite Hatt.
  match goal with |- context [TransmitStart this p ?w3] => set (w2 := w3) end.
  assert (Hlt : this < length (w_devices w1)) by (eapply lookup_lt_Some; eauto).
  assert (Hlc : c < length (w_channels w1)) by (eapply lookup_lt_Some; eauto).
  erewrite (TransmitStart_READY w2 this _ p)
    by (unfold w2; cbn; first [now apply list_lookup_insert_eq | exact Hst]).
  cbn [m_channel].
  erewrite Channel_TransmitStart_Some
    by (unfold w2, transmitting; cbn; now apply list_lookup_insert_eq).
  match goal with |- context [channel_peer ?ch this] =>
    destruct (channel_peer ch this) end;
    do 2 eexists; (split; [reflexivity|]); unfold w2; cbn;
    rewrite ?TransmitComplete_times_app; cbn; rewrite Nat.eqb_refl;
    rewrite ?app_nil_r, Hev1, Hnow1; do 2 f_equal; lia.
Qed.

End Configuration.

Section Setters.
Context `{DataRateOps}.

(** X2: [SetDataRate] and [SetInterframeGap] touch neither the transmitter
    state, nor the queue, nor the events: a completion that is scheduled
    keeps its time.  They take effect on the next transmission, which
    completes at [now + txTime + gap] for the new rate and the new gap. *)
Theorem setters_take_effect (w : World) (this : DevPtr)
    (d : PointToPointNetDevice) (r : DataRate) (t : Time) :
  w_devices w !! this = Some d ->
  exists w1,
    (exec SetDataRate this r ;; SetInterframeGap this t) w = Done tt w1 /\
    w_events w1 = w_events w /\ w_queues w1 = w_queues w /\
    device_state w1 this = Some (m_txMachineState d) /\
    device_queue w1 this = device_queue w this /\
    (forall c chan p,
       m_txMachineState d = READY -> m_channel d = Some c ->
       w_channels w !! c = Some chan ->
       exists b w',
         TransmitStart this p w1 = Done b w' /\
         TransmitComplete_times this (w_events w') =
           TransmitComplete_times this (w_events w) ++
           [(w_now w + CalculateTxTime r (GetSize p) + t)%Z]).
Proof.
  intros Hd. unfold SetDataRate, SetInterframeGap.
  rewrite (update_device_bind this _ _ w d Hd).
  pose proof (lookup_set_devices this (set_bps r d) w d Hd) as Hd1.
  unfold update_device at 1, bind at 1, deref_device. rewrite Hd1.
  eexists. split; [reflexivity|].
  assert (Hlt : this < length (w_devices w)) by (eapply lookup_lt_Some; eauto).
  destruct w as [devs chans qs now evs fwd]; cbn in *.
  unfold device_state, device_queue, set_devices; cbn.
  rewrite list_insert_insert_eq.
  split; [reflexivity|]. split; [reflexivity|].
  rewrite list_lookup_insert_eq, Hd by assumption. cbn.
  split; [reflexivity|]. split; [reflexivity|].
  intros c chan p Hst Hch Hc.
  erewrite TransmitStart_READY
    by (cbn; first [now apply list_lookup_insert_eq | exact Hst]).
  cbn [m_channel set_tInterframeGap set_bps]. rewrite Hch.
  erewrite Channel_TransmitStart_Some by (cbn; exact Hc).
  destruct (channel_peer chan this); do 2 eexists; (split; [reflexivity|]);
    cbn; rewrite ?TransmitComplete_times_app; cbn; rewrite Nat.eqb_refl;
    rewrite ?app_nil_r; do 2 f_equal; lia.
Qed.

(** X3: [AddQueue] replaces the queue pointer and leaves the old queue as it
    is.  On a [BUSY] device the packets that wait in the old queue are not
    sent by it any more: with a new, empty queue the next completion
    callback sets the transmitter [READY] and starts nothing. *)
Theorem AddQueue_strands_waiting_packets (w : World) (this : DevPtr)
    (d : PointToPointNetDevice) (q' : nat) (qu' : Queue) :
  w_devices w !! this = Some d ->
  m_txMachineState d = BUSY ->
  w_queues w !! q' = Some qu' ->
  q_packets qu' = [] ->
  exists w',
    (exec AddQueue this (Some q') ;; TransmitComplete this) w = Done tt w' /\
    device_state w' this = Some READY /\
    w_queues w' = w_queues w /\
    w_events w' = w_events w /\
    GetQueue this w' = Done (Some q') w'.
Proof.
  intros Hd Hst Hq' Hnil. unfold AddQueue.
  rewrite (update_device_bind this _ _ w d Hd).
  pose proof (lookup_set_devices this (set_queue (Some q') d) w d Hd) as Hd1.
  rewrite (TransmitComplete_BUSY_run _ this _ Hd1) by exact Hst.
  assert (Hlt : this < length (w_devices w)) by (eapply lookup_lt_Some; eauto).
  destruct w as [devs chans qs now evs fwd]; cbn in *.
  unfold bind, Queue_Dequeue, bind, deref_queue, GetQueue, bind, deref_device, ret.
  cbn. rewrite Hq', Hnil. eexists. split; [reflexivity|].
  unfold device_state. cbn.
  rewrite list_insert_insert_eq, list_lookup_insert_eq by assumption.
  repeat split.
Qed.

(** X4: the copy of a device starts [READY], whatever the original is doing,
    and shares the queue of the original.  So a packet that [SendTo] queues
    on the [BUSY] original is in the queue of the copy as well: the copy is
    [READY] with a packet waiting. *)
Theorem copy_shares_queue (w : World) (dev : DevPtr)
    (d : PointToPointNetDevice) (q : nat) (qu : Queue)
    (p : Packet) (dest : MacAddress) :
  w_devices w !! dev = Some d ->
  m_isUp d = true ->
  m_txMachineState d = BUSY ->
  m_queue d = Some q ->
  w_queues w !! q = Some qu ->
  queue_full qu = false ->
  let copy := length (w_devices w) in
  exists b w',
    (exec Copy_Device dev ;; SendTo dev p dest) w = Done b w' /\
    device_state w' dev = Some BUSY /\
    device_state w' copy = Some READY /\
    device_queue w' copy = Some (q_packets qu ++ [p]) /\
    device_queue w' dev = device_queue w' copy /\
    w_events w' = w_events w.
Proof.
  intros Hd Hup Hst Hq Hqu Hfull copy.
  assert (Hlt : dev < length (w_devices w)) by (eapply lookup_lt_Some; eauto).
  unfold bind at 1. unfold Copy_Device, bind, deref_device. rewrite Hd.
  erewrite SendTo_up; [| destruct w; cbn in *; apply lookup_app_l_Some; exact Hd
                       | exact Hup].
  rewrite Hst, Hq. unfold Queue_Enqueue, bind, deref_queue.
  destruct w as [devs chans qs now evs fwd]; cbn in *.
  rewrite Hqu, Hfull. do 2 eexists. split; [reflexivity|].
  assert (Hlq : q < length qs) by (eapply lookup_lt_Some; eauto).
  unfold device_state, device_queue; cbn.
  rewrite (lookup_app_l_Some _ _ _ _ Hd).
  rewrite lookup_app_r, Nat.sub_diag by lia. cbn.
  rewrite Hst, Hq. cbn. rewrite list_lookup_insert_eq by assumption. cbn.
  repeat split.
Qed.

End Setters.

Section Dispose.
Context `{DataRateOps} `{NetDeviceOps}.

(** X5: [DoDispose] drops the channel and cancels nothing: the transmitter
    state, the queue and the scheduled completion stay.  When that callback
    then fires with a packet waiting, the device dereferences its null
    channel; with an empty queue it becomes [READY]. *)
Theorem DoDispose_cancels_nothing (w : World) (this : DevPtr)
    (d : PointToPointNetDevice) (q : nat) (qu : Queue) :
  w_devices w !! this = Some d ->
  m_txMachineState d = BUSY ->
  m_queue d = Some q ->
  w_queues w !! q = Some qu ->
  exists w',
    DoDispose this w = Done tt w' /\
    DoGetChannel this w' = Done null w' /\
    w_events w' = w_events w /\
    device_state w' this = Some BUSY /\
    device_queue w' this = Some (q_packets qu) /\
    (q_packets qu <> [] -> TransmitComplete this w' = Aborted NullPointer) /\
    (q_packets qu = [] ->
     exists w'', TransmitComplete this w' = Done tt w'' /\
                 device_state w'' this = Some READY).
Proof.
  intros Hd Hst Hq Hqu. unfold DoDispose.
  rewrite (update_device_bind this _ _ w d Hd).
  pose proof (lookup_set_devices this (set_channel null d) w d Hd) as Hd1.
  unfold update_device, bind at 1, deref_device. rewrite Hd1.
  eexists. split; [reflexivity|].
  assert (Hlt : this < length (w_devices w)) by (eapply lookup_lt_Some; eauto).
  destruct w as [devs chans qs now evs fwd]; cbn in *.
  unfold set_devices; cbn. rewrite list_insert_insert_eq.
  set (d' := set_isUp _ _).
  assert (Hd' : <[this := d']> devs !! this = Some d')
    by now apply list_lookup_insert_eq.
  unfold DoGetChannel, bind, deref_device, ret, device_state, device_queue.
  cbn. rewrite Hd'. cbn. rewrite Hst, Hq, Hqu. cbn.
  repeat (split; [reflexivity|]).
  split.
  - intros Hne.
    match goal with |- context [TransmitComplete this ?w0] =>
      rewrite (TransmitComplete_BUSY_run w0 this d' Hd' Hst) end.
    unfold bind, Queue_Dequeue, bind, deref_queue. cbn. rewrite Hq. cbn.
    rewrite Hqu. destruct (q_packets qu) as [|p rest]; [congruence|].
    erewrite TransmitStart_READY
      by (cbn; first [ apply list_lookup_insert_eq; rewrite length_insert;
                       assumption
                     | reflexivity ]).
    reflexivity.
  - intros Hnil.
    match goal with |- context [TransmitComplete this ?w0] =>
      rewrite (TransmitComplete_BUSY_run w0 this d' Hd' Hst) end.
    unfold bind, Queue_Dequeue, bind, deref_queue. cbn. rewrite Hq. cbn.
    rewrite Hqu, Hnil. eexists. split; [reflexivity|].
    cbn. rewrite list_insert_insert_eq, list_lookup_insert_eq by assumption.
    reflexivity.
Qed.

End Dispose.

(** ** Packets on their way *)

Lemma deliveries_app l1 l2 :
  deliveries (l1 ++ l2) = deliveries l1 ++ deliveries l2.
Proof.
  induction l1 as [|[t [dev|dst p]] l1 IH]; cbn; [reflexivity|exact IH|].
  now rewrite IH.
Qed.

Lemma set_txMachineState_same d :
  set_txMachineState (m_txMachineState d) d = d.
Proof. now destruct d. Qed.

Section Service.
Context `{DataRateOps}.

(** The completion callback of a [BUSY] device with a packet waiting and a
    channel: the packet leaves the queue and goes to the channel, and the
    device itself is as before. *)
Lemma TransmitComplete_next w this d c chan q qu p rest :
  w_devices w !! this = Some d ->
  m_txMachineState d = BUSY ->
  m_channel d = Some c ->
  w_channels w !! c = Some chan ->
  m_queue d = Some q ->
  w_queues w !! q = Some qu ->
  q_packets qu = p :: rest ->
  TransmitComplete this w =
  Done tt
    {| w_devices := w_devices w;
       w_channels := w_channels w;
       w_queues :=
         <[q := {| q_packets := rest; q_maxPackets := q_maxPackets qu |}]>
           (w_queues w);
       w_now := w_now w;
       w_events :=
         (w_events w ++
          [((w_now w + (CalculateTxTime (m_bps d) (GetSize p)
                        + m_tInterframeGap d))%Z, EvTransmitComplete this)]) ++
         match channel_peer chan this with
         | Some dst => [((w_now w + ch_delay chan)%Z, EvReceive dst p)]
         | None => []
         end;
       w_forwarded := w_forwarded w |}.
Proof.
  intros Hd Hst Hch Hc Hq Hqu Hpk.
  assert (Hlt : this < length (w_devices w)) by (eapply lookup_lt_Some; eauto).
  rewrite (TransmitComplete_BUSY_run w this d Hd Hst), Hq.
  unfold bind at 1. unfold Queue_Dequeue, bind at 1, deref_queue.
  destruct w as [devs chans qs now evs fwd]; cbn in *.
  rewrite Hqu, Hpk. unfold bind.
  erewrite TransmitStart_READY
    by (cbn; first [now apply list_lookup_insert_eq | reflexivity]).
  cbn [m_channel set_txMachineState]. rewrite Hch.
  erewrite Channel_TransmitStart_Some by (cbn; exact Hc).
  assert (Hsame : <[this := set_txMachineState BUSY (set_txMachineState READY d)]>
                    (<[this := set_txMachineState READY d]> devs) = devs).
  { rewrite list_insert_insert_eq. apply list_insert_id. rewrite Hd. f_equal.
    destruct d; cbn in *. now subst. }
  destruct (channel_peer chan this);
    unfold transmitting, set_events, set_devices, set_queues;
    cbn [w_devices w_channels w_queues w_now w_events w_forwarded];
    rewrite Hsame, ?app_nil_r; reflexivity.
Qed.

(** X6: the completion callbacks of a device serve its queue in order: with
    [n] packets waiting, [n] callbacks in a row hand exactly these packets
    to the channel, one each and first come first, for delivery to the peer
    after the channel's delay; the queue is then empty and the device still
    [BUSY], and the callback after these sets it [READY] and sends nothing. *)
Theorem TransmitComplete_serves_queue_in_order (w : World) (this : DevPtr)
    (d : PointToPointNetDevice) (c : nat) (chan : PointToPointChannel)
    (dst : DevPtr) (q : nat) (qu : Queue) :
  w_devices w !! this = Some d ->
  m_txMachineState d = BUSY ->
  m_channel d = Some c ->
  w_channels w !! c = Some chan ->
  channel_peer chan this = Some dst ->
  m_queue d = Some q ->
  w_queues w !! q = Some qu ->
  exists w',
    complete_all (length (q_packets qu)) this w = Done tt w' /\
    deliveries (w_events w') =
      deliveries (w_events w) ++
      map (fun p => ((w_now w + ch_delay chan)%Z, dst, p)) (q_packets qu) /\
    device_state w' this = Some BUSY /\
    device_queue w' this = Some [] /\
    exists w'',
      TransmitComplete this w' = Done tt w'' /\
      device_state w'' this = Some READY /\
      w_events w'' = w_events w'.
Proof.
  intros Hd Hst Hch Hc Hpeer Hq Hqu.
  remember (q_packets qu) as l eqn:Hl. symmetry in Hl.
  revert w qu Hd Hc Hqu Hl. induction l as [|p rest IH]; intros w qu Hd Hc Hqu Hl.
  - cbn. exists w. rewrite app_nil_r.
    assert (Hlt : this < length (w_devices w)) by (eapply lookup_lt_Some; eauto).
    unfold device_state, device_queue. rewrite Hd, Hq, Hqu. cbn. rewrite Hst, Hl.
    repeat (split; [reflexivity|]).
    rewrite (TransmitComplete_BUSY_run w this d Hd Hst), Hq.
    unfold bind, Queue_Dequeue, bind, deref_queue.
    destruct w as [devs chans qs now evs fwd]; cbn in *. rewrite Hqu, Hl.
    eexists. split; [reflexivity|]. cbn.
    rewrite list_lookup_insert_eq by assumption. split; reflexivity.
  - cbn [length complete_all]. unfold bind at 1.
    rewrite (TransmitComplete_next w this d c chan q qu p rest) by assumption.
    rewrite Hpeer.
    match goal with |- context [complete_all _ this ?w1] => set (w1' := w1) end.
    assert (Hlq : q < length (w_queues w)) by (eapply lookup_lt_Some; eauto).
    destruct (IH w1' {| q_packets := rest; q_maxPackets := q_maxPackets qu |})
      as (w' & Hrun & Hdel & Hstate & Hqueue & Hlast);
      [exact Hd | exact Hc | now apply list_lookup_insert_eq | reflexivity |].
    exists w'. split; [exact Hrun|]. split; [|auto].
    rewrite Hdel. unfold w1'. cbn [w_events w_now].
    rewrite !deliveries_app. cbn. rewrite app_nil_r, <- app_assoc.
    reflexivity.
Qed.

Lemma SendTo_Done this p dest w b w' :
  SendTo this p dest w = Done b w' ->
  exists d,
    w_devices w !! this = Some d /\ m_isUp d = true /\
    match m_txMachineState d with
    | READY => TransmitStart this p w = Done b w'
    | BUSY => Queue_Enqueue (m_queue d) p w = Done b w'
    end.
Proof.
  destruct (w_devices w !! this) as [d|] eqn:Hd.
  2:{ unfold SendTo, IsLinkUp, bind, deref_device. rewrite Hd. discriminate. }
  destruct (m_isUp d) eqn:Hup.
  2:{ unfold SendTo, IsLinkUp, bind, deref_device, ret. rewrite Hd. cbn.
      rewrite Hup. discriminate. }
  rewrite (SendTo_up w this d p dest Hd Hup). intros Hrun. exists d.
  split; [reflexivity|]. split; [exact Hup|].
  now destruct (m_txMachineState d).
Qed.

(** X7: a packet for which [SendTo] returns [true] is either on its way to
    the peer, or last in the queue of the device; a packet for which it
    returns [false] is in neither, and the queues are as before.  [SendTo]
    touches no other device, no channel, not the clock and delivers nothing
    upward. *)
Theorem SendTo_accounts_for_packet (w : World) (this : DevPtr) (p : Packet)
    (dest : MacAddress) (b : bool) (w' : World) :
  SendTo this p dest w = Done b w' ->
  (b = true ->
     (exists t dst,
        deliveries (w_events w') = deliveries (w_events w) ++ [(t, dst, p)] /\
        w_queues w' = w_queues w) \/
     (exists old,
        device_queue w this = Some old /\
        device_queue w' this = Some (old ++ [p]) /\
        w_events w' = w_events w)) /\
  (b = false ->
     deliveries (w_events w') = deliveries (w_events w) /\
     w_queues w' = w_queues w) /\
  w_now w' = w_now w /\ w_forwarded w' = w_forwarded w /\
  w_channels w' = w_channels w /\
  (forall other, other <> this -> w_devices w' !! other = w_devices w !! other).
Proof.
  intros (d & Hd & Hup & Hrun)%SendTo_Done.
  destruct (m_txMachineState d) eqn:Hst.
  - apply TransmitStart_exact in Hrun
      as (d0 & c & chan & Hd0 & _ & Hch & Hc & Hres).
    rewrite Hd in Hd0. injection Hd0 as <-.
    destruct w as [devs chans qs now evs fwd]; cbn in *.
    destruct (channel_peer chan this) as [dst|]; destruct Hres as [-> ->]; cbn.
    + split; [intros _; left; eexists _, dst|split; [discriminate|]].
      * rewrite !deliveries_app. cbn. rewrite app_nil_r. auto.
      * repeat split. intros other Hne. now apply list_lookup_insert_ne.
    + split; [discriminate|]. split.
      * intros _. rewrite deliveries_app. cbn. now rewrite app_nil_r.
      * repeat split. intros other Hne. now apply list_lookup_insert_ne.
  - apply Queue_Enqueue_exact in Hrun as (q & qu & Hq & Hqu & -> & ->).
    unfold device_queue. rewrite Hd, Hq.
    assert (Hlq : q < length (w_queues w)) by (eapply lookup_lt_Some; eauto).
    destruct (queue_full qu); cbn.
    + split; [discriminate|]. repeat split.
    + destruct w as [devs chans qs now evs fwd]; cbn in *.
      rewrite Hd, Hq. split; [|split; [discriminate|repeat split]].
      intros _. right. exists (q_packets qu). rewrite Hqu. cbn.
      rewrite list_lookup_insert_eq by assumption. auto.
Qed.

End Service.

(** ** Pointers in a run *)







Section Pointers.
Context `{DataRateOps}.





End Pointers.

Section Progress.
Context `{DataRateOps}.






End Progress.

(** ** These properties on the scenarios *)

Lemma Attach_overrides_setters_witness :
  exists b w',
    (exec SetDataRate 0 5000000 ;; exec SetInterframeGap 0 96 ;;
     exec Attach 0 (Some 0) ;; @TransmitStart nanosecond_ticks 0 (packet 1))
      unattached_world = Done b w' /\
    TransmitComplete_times 0 (w_events w') = [3000000%Z].
Proof.
  destruct (@Attach_overrides_setters nanosecond_ticks unattached_world 0
              (set_queue (Some 0) (PointToPointNetDevice_new 10000000)) 0
              (the_channel []) 5000000 96 (packet 1))
    as (b & w' & Hrun & Htimes);
    [vm_compute; reflexivity | reflexivity | vm_compute; reflexivity |].
  exists b, w'. split; [exact Hrun|]. rewrite Htimes. reflexivity.
Defined.

Lemma setters_take_effect_witness :
  exists w1,
    (exec SetDataRate 0 5000000 ;; SetInterframeGap 0 96) one_sided_world
      = Done tt w1 /\
    exists b w',
      @TransmitStart nanosecond_ticks 0 (packet 1) w1 = Done b w' /\
      TransmitComplete_times 0 (w_events w') = [2000096%Z].
Proof.
  destruct (@setters_take_effect nanosecond_ticks one_sided_world 0
              (attached_device READY (Some 0)) 5000000 96)
    as (w1 & Hrun & _ & _ & _ & _ & Hnext); [vm_compute; reflexivity|].
  exists w1. split; [exact Hrun|].
  destruct (Hnext 0 (the_channel [0]) (packet 1) eq_refl eq_refl eq_refl)
    as (b & w' & Hts & Htimes).
  exists b, w'. split; [exact Hts|]. rewrite Htimes. reflexivity.
Defined.

Lemma AddQueue_strands_waiting_packets_witness :
  exists w',
    (exec AddQueue 0 (Some 1) ;; @TransmitComplete nanosecond_ticks 0)
      spare_queue_world = Done tt w' /\
    device_state w' 0 = Some READY /\
    q_packets <$> w_queues w' !! 0 = Some [packet 2].
Proof.
  destruct (@AddQueue_strands_waiting_packets nanosecond_ticks
              spare_queue_world 0 (attached_device BUSY (Some 0)) 1
              {| q_packets := []; q_maxPackets := None |})
    as (w' & Hrun & Hst & Hqs & _);
    [vm_compute; reflexivity | reflexivity | vm_compute; reflexivity
    | reflexivity |].
  exists w'. split; [exact Hrun|]. split; [exact Hst|]. rewrite Hqs.
  reflexivity.
Defined.

Lemma copy_shares_queue_witness :
  exists b w',
    (exec Copy_Device 0 ;; @SendTo nanosecond_ticks 0 (packet 2) [])
      sending_world = Done b w' /\
    device_state w' 1 = Some READY /\
    device_queue w' 1 = Some [packet 2].
Proof.
  destruct (@copy_shares_queue nanosecond_ticks sending_world 0
              (attached_device BUSY (Some 0)) 0 (the_queue []) (packet 2) [])
    as (b & w' & Hrun & _ & Hst & Hq & _);
    [vm_compute; reflexivity | reflexivity | reflexivity | reflexivity
    | vm_compute; reflexivity | reflexivity |].
  exists b, w'. auto.
Defined.

Lemma DoDispose_cancels_nothing_witness :
  exists w',
    @DoDispose keep_link 0 waiting_world = Done tt w' /\
    w_events w' = w_events waiting_world /\
    @TransmitComplete nanosecond_ticks 0 w' = Aborted NullPointer.
Proof.
  destruct (@DoDispose_cancels_nothing nanosecond_ticks keep_link
              waiting_world 0 (attached_device BUSY (Some 0)) 0
              (the_queue [packet 2]))
    as (w' & Hrun & _ & Hev & _ & _ & Habort & _);
    [vm_compute; reflexivity | reflexivity | reflexivity
    | vm_compute; reflexivity |].
  exists w'. split; [exact Hrun|]. split; [exact Hev|].
  apply Habort. discriminate.
Defined.

Lemma TransmitComplete_serves_queue_in_order_witness :
  exists w',
    @complete_all nanosecond_ticks 2 0 two_waiting_world = Done tt w' /\
    deliveries (w_events w') =
      [(2000000%Z, 1, packet 1); (2000000%Z, 1, packet 2);
       (2000000%Z, 1, packet 3)] /\
    device_queue w' 0 = Some [].
Proof.
  destruct (@TransmitComplete_serves_queue_in_order nanosecond_ticks
              two_waiting_world 0 (attached_device BUSY (Some 0)) 0
              (the_channel [0; 1]) 1 0
              {| q_packets := [packet 2; packet 3]; q_maxPackets := None |})
    as (w' & Hrun & Hdel & _ & Hq & _);
    [vm_compute; reflexivity | reflexivity | reflexivity
    | vm_compute; reflexivity | reflexivity | reflexivity
    | vm_compute; reflexivity |].
  exists w'. split; [exact Hrun|]. split; [|exact Hq].
  rewrite Hdel. reflexivity.
Defined.

Lemma SendTo_accounts_for_packet_witness :
  @SendTo nanosecond_ticks 0 (packet 2) [] sending_world = Done true waiting_world /\
  device_queue waiting_world 0 = Some [packet 2] /\
  w_now waiting_world = w_now sending_world.
Proof.
  assert (Hrun : @SendTo nanosecond_ticks 0 (packet 2) [] sending_world =
                 Done true waiting_world) by (vm_compute; reflexivity).
  destruct (@SendTo_accounts_for_packet nanosecond_ticks sending_world 0
              (packet 2) [] true waiting_world Hrun)
    as (Htrue & _ & Hnow & _).
  split; [exact Hrun|]. split; [reflexivity|exact Hnow].
Defined.






Section Spacing.
Context `{DataRateOps}.


End Spacing.

